(** * Operational-efficiency dashboard: the data pipeline of [dashboard.py]

    A shallow embedding of the data-transformation part of the dashboard
    (the loader, the KPI engine, the chart-data preparation and the sidebar,
    filter and month-over-month code of [main]) together with the properties
    that its specification states about it.

    Modelling conventions.
    - A pandas DataFrame is a list of typed rows, in row order.
    - A float64 cell is a value of [num]: an exact rational, or one of the
      IEEE special values +inf, -inf and NaN.  Rounding is not modelled and
      there is a single zero; NaN also stands for a missing cell, as in
      pandas.
    - A text, id or date cell is an [option]: [None] is a missing cell (NaN in
      an object column, NaT in the date column).  The on_time column is
      boolean and has no missing cell.
    - [pd.read_csv] is modelled by its outcome: the rows it returns or the
      exception it raises; [pd.to_datetime] has already turned every date
      cell into a date or NaT.
    - [@st.cache_data] is modelled by an explicit memo table threaded through
      the cached calls. *)

From Stdlib Require Import List Bool ZArith QArith Qreduction Lia Sorted.
From Stdlib Require Import String Ascii DecimalString DecimalPos DecimalZ.
Import ListNotations.

Local Open Scope Z_scope.

(** ** Numbers *)

Inductive num : Type :=
| Fin (q : Q)
| PInf
| NInf
| NaN.

Definition Qsgn (q : Q) : comparison := Z.compare (Qnum q) 0.

Definition of_Z (z : Z) : num := Fin (z # 1).
Definition of_nat (n : nat) : num := of_Z (Z.of_nat n).
Definition of_bool (b : bool) : num := if b then of_Z 1 else of_Z 0.

Definition isna (x : num) : bool :=
  match x with NaN => true | _ => false end.

Definition notna (x : num) : bool := negb (isna x).

Definition fneg (x : num) : num :=
  match x with
  | Fin q => Fin (Qred (- q))
  | PInf => NInf
  | NInf => PInf
  | NaN => NaN
  end.

Definition fadd (x y : num) : num :=
  match x, y with
  | NaN, _ | _, NaN => NaN
  | Fin a, Fin b => Fin (Qred (a + b))
  | PInf, NInf | NInf, PInf => NaN
  | PInf, _ | _, PInf => PInf
  | NInf, _ | _, NInf => NInf
  end.

Definition fsub (x y : num) : num := fadd x (fneg y).

(** An infinity of sign [pos] scaled by a factor of sign [s]. *)
Definition inf_signed (pos : bool) (s : comparison) : num :=
  match s with
  | Eq => NaN
  | Gt => if pos then PInf else NInf
  | Lt => if pos then NInf else PInf
  end.

Definition fmul (x y : num) : num :=
  match x, y with
  | NaN, _ | _, NaN => NaN
  | Fin a, Fin b => Fin (Qred (a * b))
  | PInf, Fin b | Fin b, PInf => inf_signed true (Qsgn b)
  | NInf, Fin b | Fin b, NInf => inf_signed false (Qsgn b)
  | PInf, PInf | NInf, NInf => PInf
  | PInf, NInf | NInf, PInf => NInf
  end.

Definition fdiv (x y : num) : num :=
  match x, y with
  | NaN, _ | _, NaN => NaN
  | Fin a, Fin b =>
      match Qsgn b with
      | Eq => inf_signed true (Qsgn a)
      | _ => Fin (Qred (a / b))
      end
  | Fin _, _ => of_Z 0
  | PInf, Fin b => match Qsgn b with Lt => NInf | _ => PInf end
  | NInf, Fin b => match Qsgn b with Lt => PInf | _ => NInf end
  | _, _ => NaN
  end.

(** Python's [x != 0] on a numpy scalar: NaN and the infinities differ
    from zero. *)
Definition ne0 (x : num) : bool :=
  match x with
  | Fin q => match Qsgn q with Eq => false | _ => true end
  | _ => true
  end.

(** ** Series reductions (pandas defaults: [skipna=True]) *)

Definition dropna (xs : list num) : list num := filter notna xs.

Definition total (xs : list num) : num := fold_left fadd xs (of_Z 0).

(** [Series.sum()] *)
Definition series_sum (xs : list num) : num := total (dropna xs).

(** [Series.mean()] and the ['mean'] aggregation. *)
Definition series_mean (xs : list num) : num :=
  match dropna xs with
  | [] => NaN
  | ys => fdiv (total ys) (of_nat (List.length ys))
  end.

(** [sum()] of a boolean column counts the [True] cells. *)
Definition bool_sum (bs : list bool) : num :=
  of_nat (List.length (filter (fun b => b) bs)).

Definition bool_mean (bs : list bool) : num :=
  series_mean (map of_bool bs).

(** ** Dates *)

Inductive Month : Type :=
| Jan | Feb | Mar | Apr | May | Jun | Jul | Aug | Sep | Oct | Nov | Dec.

Record Date : Type := mkDate { year : Z; month : Month; day : Z }.

Definition month_ord (m : Month) : Z :=
  match m with
  | Jan => 0 | Feb => 1 | Mar => 2 | Apr => 3 | May => 4 | Jun => 5
  | Jul => 6 | Aug => 7 | Sep => 8 | Oct => 9 | Nov => 10 | Dec => 11
  end.

Definition month_of_ord (z : Z) : Month :=
  match z with
  | 0 => Jan | 1 => Feb | 2 => Mar | 3 => Apr | 4 => May | 5 => Jun
  | 6 => Jul | 7 => Aug | 8 => Sep | 9 => Oct | 10 => Nov | _ => Dec
  end.

Definition month_abbr (m : Month) : string :=
  match m with
  | Jan => "Jan" | Feb => "Feb" | Mar => "Mar" | Apr => "Apr"
  | May => "May" | Jun => "Jun" | Jul => "Jul" | Aug => "Aug"
  | Sep => "Sep" | Oct => "Oct" | Nov => "Nov" | Dec => "Dec"
  end%string.

(** The calendar month a date belongs to, as a number of months. *)
Definition month_index (d : Date) : Z := year d * 12 + month_ord (month d).

Definition is_leap (y : Z) : bool :=
  ((y mod 4 =? 0) && negb (y mod 100 =? 0)) || (y mod 400 =? 0).

Definition days_in_month (y : Z) (m : Month) : Z :=
  match m with
  | Feb => if is_leap y then 29 else 28
  | Apr | Jun | Sep | Nov => 30
  | _ => 31
  end.

(** The label pandas gives a month-end bin: the last day of the month. *)
Definition month_end (k : Z) : Date :=
  let y := k / 12 in
  let m := month_of_ord (k mod 12) in
  mkDate y m (days_in_month y m).

(** [strftime('%b %Y')]; a pandas Timestamp has a four-digit year. *)
Definition strftime_bY (d : Date) : string :=
  (month_abbr (month d) ++ " " ++ NilZero.string_of_int (Z.to_int (year d)))%string.

(** ** Exceptions *)

Inductive exn : Type :=
| FileNotFoundError
| PermissionError
| EmptyDataError
| ParserError
| KeyError (key : string)
| ValueError
| TypeError.

Inductive result (A : Type) : Type :=
| Ok (a : A)
| Raise (e : exn).

Arguments Ok {A} a.
Arguments Raise {A} e.

Definition bind {A B : Type} (m : result A) (k : A -> result B) : result B :=
  match m with
  | Ok a => k a
  | Raise e => Raise e
  end.

Notation "x <- m ;; k" := (bind m (fun x => k))
  (at level 61, m at next level, right associativity).

Fixpoint mapM {A B : Type} (f : A -> result B) (xs : list A) : result (list B) :=
  match xs with
  | [] => Ok []
  | x :: t => y <- f x ;; ys <- mapM f t ;; Ok (y :: ys)
  end.

(** A Python dict with string keys, in insertion order; [d[k]]. *)
Definition dict (V : Type) : Type := list (string * V).

Fixpoint getitem {V : Type} (d : dict V) (k : string) : result V :=
  match d with
  | [] => Raise (KeyError k)
  | (k', v) :: t => if String.eqb k' k then Ok v else getitem t k
  end.

(** ** Cells of an object column *)

(** A text cell; [None] is the missing cell. *)
Definition cell : Type := option string.

(** [column == value]: a missing cell equals nothing. *)
Definition cell_is (c : cell) (v : string) : bool :=
  match c with
  | Some x => String.eqb x v
  | None => false
  end.

(** Equality of join keys and of the values kept by [unique()]: two missing
    cells count as the same value. *)
Definition cell_eqb (a b : cell) : bool :=
  match a, b with
  | Some x, Some y => String.eqb x y
  | None, None => true
  | _, _ => false
  end.

Definition notnull {A : Type} (c : option A) : bool :=
  match c with Some _ => true | None => false end.

(** ** The tables *)

Record DeliveryEvent : Type := mkDelivery {
  delivery_id : cell;
  vehicle_id : cell;
  date : option Date;
  city : cell;
  planned_minutes : num;
  actual_minutes : num;
  on_time : bool;
  fuel_cost : num;
  other_cost : num;
  distance_km : num
}.

Record VehicleRecord : Type := mkVehicle {
  fleet_vehicle_id : cell;
  fleet_city : cell
}.

(** A row of the merged frame with its derived columns.  [event] holds the
    delivery-side columns; [city] of the event is the renamed
    [delivery_city]. *)
Record EnrichedRecord : Type := mkEnriched {
  event : DeliveryEvent;
  vehicle_home_city : cell;
  delay_minutes : num;
  total_cost : num;
  cost_per_km : num;
  fuel_cost_per_km : num;
  month_name : cell
}.

Definition DataFrame : Type := list EnrichedRecord.

Definition delivery_city (r : EnrichedRecord) : cell := city (event r).

(** ** Record loader *)

(** What [pd.read_csv] gives for each of the two paths. *)
Record Sources : Type := mkSources {
  deliveries_csv : result (list DeliveryEvent);
  fleet_csv : result (list VehicleRecord)
}.

(** [pd.merge(left, right, on='vehicle_id', how='left')]: left rows in order,
    each paired with every right row of the same key, or with nothing; a
    missing key matches a missing key. *)
Definition merge_left (left : list DeliveryEvent) (right : list VehicleRecord)
  : list (DeliveryEvent * option VehicleRecord) :=
  flat_map (fun d =>
    match filter (fun v => cell_eqb (fleet_vehicle_id v) (vehicle_id d)) right with
    | [] => [(d, None)]
    | vs => map (fun v => (d, Some v)) vs
    end) left.

Definition derive (p : DeliveryEvent * option VehicleRecord) : EnrichedRecord :=
  let (d, v) := p in
  let total := fadd (fuel_cost d) (other_cost d) in
  {| event := d;
     vehicle_home_city := match v with Some w => fleet_city w | None => None end;
     delay_minutes := fsub (actual_minutes d) (planned_minutes d);
     total_cost := total;
     cost_per_km := fdiv total (distance_km d);
     fuel_cost_per_km := fdiv (fuel_cost d) (distance_km d);
     month_name := option_map strftime_bY (date d) |}.

Definition missing_files_message : string :=
  "Missing data files. Ensure 'deliveries.csv' and 'fleet.csv' are in the same directory.".

(** What the loader hands back: the [st.error] boxes it showed and the frame. *)
Record Loaded : Type := mkLoaded {
  shown : list string;
  frame : DataFrame
}.

Definition read_sources (src : Sources)
  : result (list DeliveryEvent * list VehicleRecord) :=
  deliveries_df <- deliveries_csv src ;;
  fleet_df <- fleet_csv src ;;
  Ok (deliveries_df, fleet_df).

Definition load_and_prepare_data (src : Sources) : result Loaded :=
  match read_sources src with
  | Raise FileNotFoundError =>
      Ok {| shown := [missing_files_message]; frame := [] |}
  | Raise e => Raise e
  | Ok (deliveries_df, fleet_df) =>
      Ok {| shown := []; frame := map derive (merge_left deliveries_df fleet_df) |}
  end.

(** ** Grouping *)

Fixpoint group_insert {A : Type} (k : string) (r : A) (gs : dict (list A))
  : dict (list A) :=
  match gs with
  | [] => [(k, [r])]
  | (k', rs) :: t =>
      match String.compare k k' with
      | Eq => (k', rs ++ [r]) :: t
      | Lt => (k, [r]) :: gs
      | Gt => (k', rs) :: group_insert k r t
      end
  end.

(** [groupby(key)]: groups in ascending key order, rows in frame order; a row
    whose key is missing is in no group. *)
Definition groupby {A : Type} (key : A -> cell) (df : list A) : dict (list A) :=
  fold_left (fun gs r =>
               match key r with
               | Some k => group_insert k r gs
               | None => gs
               end) df [].

(** [['delivery_id'].count()] of a group: the rows whose id is not missing. *)
Definition count_ids (rows : DataFrame) : nat :=
  List.length (filter (fun r => notnull (delivery_id (event r))) rows).

Definition zrange (lo : Z) (n : nat) : list Z :=
  map (fun i => lo + Z.of_nat i) (seq 0 n).

(** The calendar month of a row, when it has a date. *)
Definition month_of {A : Type} (when : A -> option Date) (r : A) : option Z :=
  option_map month_index (when r).

Definition in_month {A : Type} (when : A -> option Date) (k : Z) (r : A) : bool :=
  match month_of when r with
  | Some m => m =? k
  | None => false
  end.

(** The months of the dated rows, in frame order. *)
Definition dated_months {A : Type} (when : A -> option Date) (df : list A)
  : list Z :=
  flat_map (fun r => match month_of when r with Some k => [k] | None => [] end) df.

(** The bins of [set_index('date').resample('M')...reset_index()]: one bin per
    calendar month from the month of the earliest date to the month of the
    latest one, each with the rows of that month; rows without a date are in
    no bin.  On a frame without any dated row, the empty frame in particular,
    the chain raises ValueError. *)
Definition resample_M {A : Type} (when : A -> option Date) (df : list A)
  : result (list (Z * list A)) :=
  match dated_months when df with
  | [] => Raise ValueError
  | k :: ks =>
      let lo := fold_right Z.min k ks in
      let hi := fold_right Z.max k ks in
      Ok (map (fun m => (m, filter (in_month when m) df))
              (zrange lo (Z.to_nat (hi - lo + 1))))
  end.

(** ** KPI engine *)

Definition calculate_kpis (df : DataFrame) : dict num :=
  let avg_delay := series_mean (map delay_minutes df) in
  let on_time_rate :=
    fmul (fdiv (bool_sum (map (fun r => on_time (event r)) df))
               (of_nat (List.length df))) (of_Z 100) in
  let cost_per_km :=
    fdiv (series_sum (map total_cost df))
         (series_sum (map (fun r => distance_km (event r)) df)) in
  let deliveries_per_vehicle :=
    series_mean (map (fun g => of_nat (count_ids (snd g)))
                     (groupby (fun r => vehicle_id (event r)) df)) in
  let fuel_cost_ratio :=
    fmul (fdiv (series_sum (map (fun r => fuel_cost (event r)) df))
               (series_sum (map total_cost df))) (of_Z 100) in
  [ ("Average Delay", avg_delay);
    ("On-Time Rate", on_time_rate);
    ("Cost per Kilometer", cost_per_km);
    ("Deliveries per Vehicle", deliveries_per_vehicle);
    ("Fuel Cost Ratio", fuel_cost_ratio) ]%string.

(** ** Chart data preparation *)

Module Trend.
Record row : Type := mk {
  date : Date;
  avg_delay : num;
  cost_per_km : num;
  month_name : string
}.
End Trend.

Module CostTime.
Record row : Type := mk {
  delivery_city : string;
  cost_per_km : num;
  on_time_rate : num
}.
End CostTime.

Record ChartData : Type := mkChartData {
  delay_by_city : dict num;
  cost_time_city : list CostTime.row;
  deliveries_per_vehicle_data : dict nat;
  monthly_trend : list Trend.row
}.

Definition trend_bucket (b : Z * DataFrame) : Trend.row :=
  let d := month_end (fst b) in
  {| Trend.date := d;
     Trend.avg_delay := series_mean (map delay_minutes (snd b));
     Trend.cost_per_km := series_mean (map cost_per_km (snd b));
     Trend.month_name := strftime_bY d |}.

(** The three groupings are computed first; the resample chain of the monthly
    trend is the only step that can raise. *)
Definition prepare_chart_data (df : DataFrame) : result ChartData :=
  let delay_by_city :=
    map (fun g => (fst g, series_mean (map delay_minutes (snd g))))
        (groupby delivery_city df) in
  let cost_time_city :=
    map (fun g =>
           {| CostTime.delivery_city := fst g;
              CostTime.cost_per_km := series_mean (map cost_per_km (snd g));
              CostTime.on_time_rate :=
                fmul (bool_mean (map (fun r => on_time (event r)) (snd g)))
                     (of_Z 100) |})
        (groupby delivery_city df) in
  let deliveries_per_vehicle_data :=
    map (fun g => (fst g, count_ids (snd g)))
        (groupby (fun r => vehicle_id (event r)) df) in
  bins <- resample_M (fun r => date (event r)) df ;;
  Ok {| delay_by_city := delay_by_city;
        cost_time_city := cost_time_city;
        deliveries_per_vehicle_data := deliveries_per_vehicle_data;
        monthly_trend := map trend_bucket bins |}.

(** ** Sidebar *)

(** [Series.unique()]: the distinct values, in order of first appearance; the
    missing cell is one value. *)
Fixpoint unique (xs : list cell) : list cell :=
  match xs with
  | [] => []
  | x :: t => x :: filter (fun y => negb (cell_eqb y x)) (unique t)
  end.

Fixpoint insert_sorted (x : string) (l : list string) : list string :=
  match l with
  | [] => [x]
  | y :: t => if String.leb x y then x :: l else y :: insert_sorted x t
  end.

(** Ascending code-point order of strings (equal strings are identical, so the
    sorting algorithm does not show). *)
Definition sorted (l : list string) : list string :=
  fold_right insert_sorted [] l.

Fixpoint all_text (l : list cell) : option (list string) :=
  match l with
  | [] => Some []
  | Some x :: t => option_map (cons x) (all_text t)
  | None :: _ => None
  end.

(** [sorted(values)] on the cells of an object column: a list that mixes text
    with the missing cell (a float NaN) raises TypeError at the first
    comparison of the two; a list of missing cells only is left as it is. *)
Definition py_sorted (l : list cell) : result (list cell) :=
  match all_text l with
  | Some texts => Ok (map Some (sorted texts))
  | None => if forallb (fun c => negb (notnull c)) l then Ok l else Raise TypeError
  end.

(** [["All"] + values], the options of a radio widget. *)
Definition radio_options (values : list cell) : list cell :=
  Some "All"%string :: values.

(** ** Filter stage *)

(** What the two radio widgets return when a text option is selected. *)
Record Selection : Type := mkSelection {
  selected_city : string;
  selected_month : string
}.

Definition filter_city (selected : string) (df : DataFrame) : DataFrame :=
  if negb (String.eqb selected "All")
  then filter (fun r => cell_is (delivery_city r) selected) df
  else df.

Definition filter_month (selected : string) (df : DataFrame) : DataFrame :=
  if negb (String.eqb selected "All")
  then filter (fun r => cell_is (month_name r) selected) df
  else df.

Definition apply_filters (sel : Selection) (df : DataFrame) : DataFrame :=
  filter_month (selected_month sel) (filter_city (selected_city sel) df).

(** ** Month-over-month deltas *)

Module Summary.
Record row : Type := mk {
  date : Date;
  avg_delay : num;
  on_time_rate : num;
  cost_per_km : num;
  deliveries_per_vehicle : num;
  fuel_cost_ratio : num
}.

(** [monthly_summary[col]] for one row. *)
Definition column (col : string) : result (row -> num) :=
  getitem [ ("avg_delay", avg_delay);
            ("on_time_rate", on_time_rate);
            ("cost_per_km", cost_per_km);
            ("deliveries_per_vehicle", deliveries_per_vehicle);
            ("fuel_cost_ratio", fuel_cost_ratio) ]%string col.
End Summary.

Definition fuel_cost_ratio_of (r : EnrichedRecord) : num :=
  fmul (fdiv (fuel_cost (event r)) (total_cost r)) (of_Z 100).

Definition summary_bucket (b : Z * list (EnrichedRecord * num)) : Summary.row :=
  let rows := map fst (snd b) in
  {| Summary.date := month_end (fst b);
     Summary.avg_delay := series_mean (map delay_minutes rows);
     Summary.on_time_rate := bool_mean (map (fun r => on_time (event r)) rows);
     Summary.cost_per_km := series_mean (map cost_per_km rows);
     Summary.deliveries_per_vehicle := of_nat (count_ids rows);
     Summary.fuel_cost_ratio := series_mean (map snd (snd b)) |}.

Definition monthly_summary (df : DataFrame) : result (list Summary.row) :=
  let df_with_ratio := map (fun r => (r, fuel_cost_ratio_of r)) df in
  bins <- resample_M (fun p => date (event (fst p))) df_with_ratio ;;
  Ok (map summary_bucket bins).

(** [s.iloc[-k]] for [1 <= k <= len(s)]. *)
Definition iloc_back (k : nat) (s : list num) : num :=
  nth (List.length s - k) s NaN.

Definition summary_columns : list string :=
  [ "avg_delay"; "on_time_rate"; "cost_per_km";
    "deliveries_per_vehicle"; "fuel_cost_ratio" ]%string.

Definition mom_of (summary : list Summary.row) (col : string) : result num :=
  if (2 <=? List.length summary)%nat then
    get <- Summary.column col ;;
    let prev := iloc_back 2 (map get summary) in
    let curr := iloc_back 1 (map get summary) in
    Ok (if ne0 prev then fmul (fdiv (fsub curr prev) prev) (of_Z 100) else of_Z 0)
  else Ok (of_Z 0).

Definition mom_values_of (summary : list Summary.row) : result (dict num) :=
  mapM (fun col => mom <- mom_of summary col ;; Ok (col, mom)) summary_columns.

Definition kpi_map : dict string :=
  [ ("Average Delay", "avg_delay");
    ("On-Time Rate", "on_time_rate");
    ("Cost per Kilometer", "cost_per_km");
    ("Deliveries per Vehicle", "deliveries_per_vehicle");
    ("Fuel Cost Ratio", "fuel_cost_ratio") ]%string.

(** One KPI tile: its name, its value and its month-over-month delta. *)
Record Card : Type := mkCard {
  card_name : string;
  card_value : num;
  card_mom : num
}.

Definition kpi_cards (kpis mom_values : dict num) : result (list Card) :=
  mapM (fun kv =>
          col <- getitem kpi_map (fst kv) ;;
          mom <- getitem mom_values col ;;
          Ok {| card_name := fst kv; card_value := snd kv; card_mom := mom |})
       kpis.

(** [mom < 0] and [mom > 0]; both are false for NaN. *)
Definition lt0 (x : num) : bool :=
  match x with
  | Fin q => match Qsgn q with Lt => true | _ => false end
  | NInf => true
  | _ => false
  end.

Definition gt0 (x : num) : bool :=
  match x with
  | Fin q => match Qsgn q with Gt => true | _ => false end
  | PInf => true
  | _ => false
  end.

Definition lower_is_better : list string :=
  [ "Average Delay"; "Cost per Kilometer"; "Fuel Cost Ratio" ]%string.

(** The arrow and the colour of a KPI tile. *)
Definition tile_trend (name : string) (mom : num) : string * string :=
  if existsb (String.eqb name) lower_is_better then
    (if lt0 mom then "▲" else "▼", if lt0 mom then "green" else "red")%string
  else
    (if gt0 mom then "▲" else "▼", if gt0 mom then "green" else "red")%string.

(** ** The page *)

Record Bundle : Type := mkBundle {
  city_options : list cell;
  month_options : list cell;
  rows : DataFrame;
  cards : list Card;
  charts : ChartData
}.

(** What one run of [main] puts on the page: the error boxes and, unless the
    run returned early, the sidebar options, the KPI tiles and the chart
    data. *)
Record Page : Type := mkPage {
  errors : list string;
  body : option Bundle
}.

Definition df_empty (df : DataFrame) : bool :=
  match df with [] => true | _ => false end.

(** [main], with the three [@st.cache_data] functions called directly.  The
    figures drawn from the chart data are not part of the model. *)
Definition main (src : Sources) (sel : Selection) : result Page :=
  loaded <- load_and_prepare_data src ;;
  let df := frame loaded in
  if df_empty df then Ok {| errors := shown loaded; body := None |}
  else
    cities <- py_sorted (unique (map delivery_city df)) ;;
    months <- py_sorted (unique (map month_name df)) ;;
    let df := apply_filters sel df in
    let kpis := calculate_kpis df in
    summary <- monthly_summary df ;;
    mom_values <- mom_values_of summary ;;
    cards <- kpi_cards kpis mom_values ;;
    charts <- prepare_chart_data df ;;
    Ok {| errors := shown loaded;
          body := Some {| city_options := radio_options cities;
                          month_options := radio_options months;
                          rows := df; cards := cards; charts := charts |} |}.

(** ** [@st.cache_data] *)

Section Memo.
Context {K V : Type}.
Variable K_eq_dec : forall x y : K, {x = y} + {x <> y}.

(** The entries stored for one decorated function, newest first. *)
Definition memo : Type := list (K * V).

Fixpoint memo_find (c : memo) (k : K) : option V :=
  match c with
  | [] => None
  | (k', v) :: t => if K_eq_dec k' k then Some v else memo_find t k
  end.

(** A call of the decorated [f]: a hit returns the stored value, a miss runs
    [f] and stores what it returned; a raised exception stores nothing. *)
Definition cache_data (f : K -> result V) (k : K) (c : memo) : result V * memo :=
  match memo_find c k with
  | Some v => (Ok v, c)
  | None =>
      match f k with
      | Ok v => (Ok v, (k, v) :: c)
      | Raise e => (Raise e, c)
      end
  end.

(** Every stored value is what the function returns for its key. *)
Definition memo_sound (f : K -> result V) (c : memo) : Prop :=
  forall k v, memo_find c k = Some v -> f k = Ok v.
End Memo.

Definition Q_eq_dec (x y : Q) : {x = y} + {x <> y}.
Proof. decide equality; [apply Pos.eq_dec | apply Z.eq_dec]. Defined.

Definition num_eq_dec (x y : num) : {x = y} + {x <> y}.
Proof. decide equality; apply Q_eq_dec. Defined.

Definition Month_eq_dec (x y : Month) : {x = y} + {x <> y}.
Proof. decide equality. Defined.

Definition Date_eq_dec (x y : Date) : {x = y} + {x <> y}.
Proof. decide equality; [apply Z.eq_dec | apply Month_eq_dec | apply Z.eq_dec]. Defined.

Definition cell_eq_dec (x y : cell) : {x = y} + {x <> y}.
Proof. decide equality; apply string_dec. Defined.

Definition DeliveryEvent_eq_dec (x y : DeliveryEvent) : {x = y} + {x <> y}.
Proof.
  decide equality;
    first [ apply num_eq_dec | apply cell_eq_dec | apply bool_dec
          | decide equality; apply Date_eq_dec ].
Defined.

Definition EnrichedRecord_eq_dec (x y : EnrichedRecord) : {x = y} + {x <> y}.
Proof.
  decide equality;
    first [ apply num_eq_dec | apply cell_eq_dec | apply DeliveryEvent_eq_dec ].
Defined.

Definition DataFrame_eq_dec : forall x y : DataFrame, {x = y} + {x <> y} :=
  list_eq_dec EnrichedRecord_eq_dec.

(** The cache of one server process: the loader takes no argument and has a
    single slot; the two other functions are keyed by their frame. *)
Record Cache : Type := mkCache {
  load_memo : option Loaded;
  kpi_memo : @memo DataFrame (dict num);
  chart_memo : @memo DataFrame ChartData
}.

Definition empty_cache : Cache :=
  {| load_memo := None; kpi_memo := []; chart_memo := [] |}.

(** A computation that may raise and that reads and extends the cache. *)
Definition Run (A : Type) : Type := Cache -> result A * Cache.

Definition run_bind {A B : Type} (m : Run A) (k : A -> Run B) : Run B :=
  fun c =>
    match m c with
    | (Ok a, c') => k a c'
    | (Raise e, c') => (Raise e, c')
    end.

Definition run_ret {A : Type} (a : A) : Run A := fun c => (Ok a, c).

Definition run_lift {A : Type} (r : result A) : Run A := fun c => (r, c).

Notation "x <~ m ;; k" := (run_bind m (fun x => k))
  (at level 61, m at next level, right associativity).

(** A raised exception stores nothing. *)
Definition cached_load_and_prepare_data (src : Sources) : Run Loaded :=
  fun c =>
    match load_memo c with
    | Some loaded => (Ok loaded, c)
    | None =>
        match load_and_prepare_data src with
        | Ok loaded =>
            (Ok loaded,
             {| load_memo := Some loaded;
                kpi_memo := kpi_memo c; chart_memo := chart_memo c |})
        | Raise e => (Raise e, c)
        end
    end.

Definition cached_calculate_kpis (df : DataFrame) : Run (dict num) :=
  fun c =>
    let (v, m) := cache_data DataFrame_eq_dec (fun d => Ok (calculate_kpis d))
                             df (kpi_memo c) in
    (v, {| load_memo := load_memo c; kpi_memo := m; chart_memo := chart_memo c |}).

Definition cached_prepare_chart_data (df : DataFrame) : Run ChartData :=
  fun c =>
    let (v, m) := cache_data DataFrame_eq_dec prepare_chart_data df (chart_memo c) in
    (v, {| load_memo := load_memo c; kpi_memo := kpi_memo c; chart_memo := m |}).

(** [main] as one script run of a session, with the decorated functions
    going through the cache. *)
Definition main_cached (src : Sources) (sel : Selection) : Run Page :=
  loaded <~ cached_load_and_prepare_data src ;;
  let df := frame loaded in
  if df_empty df then run_ret {| errors := shown loaded; body := None |}
  else
    cities <~ run_lift (py_sorted (unique (map delivery_city df))) ;;
    months <~ run_lift (py_sorted (unique (map month_name df))) ;;
    let df := apply_filters sel df in
    kpis <~ cached_calculate_kpis df ;;
    summary <~ run_lift (monthly_summary df) ;;
    mom_values <~ run_lift (mom_values_of summary) ;;
    cards <~ run_lift (kpi_cards kpis mom_values) ;;
    charts <~ cached_prepare_chart_data df ;;
    run_ret {| errors := shown loaded;
               body := Some {| city_options := radio_options cities;
                               month_options := radio_options months;
                               rows := df; cards := cards; charts := charts |} |}.

(** The cache of a process whose two files have the contents [src]. *)
Definition coherent (src : Sources) (c : Cache) : Prop :=
  (forall loaded, load_memo c = Some loaded -> load_and_prepare_data src = Ok loaded)
  /\ memo_sound DataFrame_eq_dec (fun d => Ok (calculate_kpis d)) (kpi_memo c)
  /\ memo_sound DataFrame_eq_dec prepare_chart_data (chart_memo c).

(** ** Sample data *)

Definition delivery_jan31 : DeliveryEvent :=
  {| delivery_id := Some "D1"; vehicle_id := Some "V1";
     date := Some (mkDate 2024 Jan 31);
     city := Some "Lagos"; planned_minutes := of_Z 30; actual_minutes := of_Z 35;
     on_time := true; fuel_cost := of_Z 6; other_cost := of_Z 4;
     distance_km := of_Z 2 |}%string.

Definition delivery_feb01 : DeliveryEvent :=
  {| delivery_id := Some "D2"; vehicle_id := Some "V2";
     date := Some (mkDate 2024 Feb 1);
     city := Some "Abuja"; planned_minutes := of_Z 30; actual_minutes := of_Z 20;
     on_time := false; fuel_cost := of_Z 15; other_cost := of_Z 5;
     distance_km := of_Z 5 |}%string.

Definition delivery_apr01 : DeliveryEvent :=
  {| delivery_id := Some "D3"; vehicle_id := Some "V1";
     date := Some (mkDate 2024 Apr 1);
     city := Some "Abuja"; planned_minutes := of_Z 25; actual_minutes := of_Z 20;
     on_time := true; fuel_cost := of_Z 8; other_cost := of_Z 2;
     distance_km := of_Z 4 |}%string.

(** A delivery whose vehicle_id and delivery_id cells are blank. *)
Definition delivery_blank_ids : DeliveryEvent :=
  {| delivery_id := None; vehicle_id := None;
     date := Some (mkDate 2024 Feb 9);
     city := Some "Kano"; planned_minutes := of_Z 40; actual_minutes := of_Z 40;
     on_time := true; fuel_cost := of_Z 9; other_cost := of_Z 1;
     distance_km := of_Z 5 |}%string.

(** A delivery whose city cell is blank. *)
Definition delivery_blank_city : DeliveryEvent :=
  {| delivery_id := Some "D5"; vehicle_id := Some "V2";
     date := Some (mkDate 2024 Feb 12);
     city := None; planned_minutes := of_Z 40; actual_minutes := of_Z 45;
     on_time := false; fuel_cost := of_Z 9; other_cost := of_Z 1;
     distance_km := of_Z 5 |}%string.

Definition sample_fleet : list VehicleRecord :=
  [ {| fleet_vehicle_id := Some "V1"; fleet_city := Some "Kano" |} ]%string.

(** A registry that lists vehicle V1 twice. *)
Definition duplicated_fleet : list VehicleRecord :=
  [ {| fleet_vehicle_id := Some "V1"; fleet_city := Some "Kano" |};
    {| fleet_vehicle_id := Some "V1"; fleet_city := Some "Lagos" |} ]%string.

Definition sample_sources : Sources :=
  {| deliveries_csv := Ok [delivery_jan31; delivery_feb01; delivery_apr01];
     fleet_csv := Ok sample_fleet |}.

Definition sample_frame : DataFrame :=
  map derive (merge_left [delivery_jan31; delivery_feb01; delivery_apr01] sample_fleet).

Definition row_jan31 : EnrichedRecord :=
  derive (delivery_jan31, Some (mkVehicle (Some "V1") (Some "Kano")))%string.
Definition row_feb01 : EnrichedRecord := derive (delivery_feb01, None).
Definition row_blank_ids : EnrichedRecord := derive (delivery_blank_ids, None).

Definition unreadable_sources : Sources :=
  {| deliveries_csv := Raise PermissionError; fleet_csv := Ok sample_fleet |}.

Definition unparsable_sources : Sources :=
  {| deliveries_csv := Raise ParserError; fleet_csv := Ok sample_fleet |}.

Definition missing_sources : Sources :=
  {| deliveries_csv := Ok [delivery_jan31]; fleet_csv := Raise FileNotFoundError |}.

(** A delivery file with a header line and no data line. *)
Definition zero_row_sources (fleet : list VehicleRecord) : Sources :=
  {| deliveries_csv := Ok []; fleet_csv := Ok fleet |}.

(** Deliveries of which one has a blank city. *)
Definition blank_city_sources : Sources :=
  {| deliveries_csv := Ok [delivery_jan31; delivery_blank_city];
     fleet_csv := Ok sample_fleet |}.

Definition select_all : Selection :=
  {| selected_city := "All"; selected_month := "All" |}.

(** A city and a month that no sample record combines. *)
Definition select_lagos_feb : Selection :=
  {| selected_city := "Lagos"; selected_month := "Feb 2024" |}.

Definition select_jan : Selection :=
  {| selected_city := "All"; selected_month := "Jan 2024" |}.

(** The cache of a process whose first run found fleet.csv missing. *)
Definition stale_cache : Cache :=
  snd (main_cached missing_sources select_all empty_cache).

(** ** Notions used in the statements *)

(** The number zero, in any representation. *)
Definition is_zero (x : num) : Prop :=
  match x with
  | Fin q => (q == 0)%Q
  | _ => False
  end.

(** The records of one calendar month. *)
Definition rows_of_month (df : DataFrame) (k : Z) : DataFrame :=
  filter (in_month (fun r => date (event r)) k) df.

(** The delta that [mom_of] computes from the column [get] of a summary. *)
Definition delta_percent (summary : list Summary.row) (get : Summary.row -> num) : num :=
  if (2 <=? List.length summary)%nat then
    let prev := iloc_back 2 (map get summary) in
    let curr := iloc_back 1 (map get summary) in
    if ne0 prev then fmul (fdiv (fsub curr prev) prev) (of_Z 100) else of_Z 0
  else of_Z 0.

(** [lo] and [hi] are the months of the earliest and of the latest dated
    row. *)
Definition spans {A : Type} (when : A -> option Date) (df : list A) (lo hi : Z)
  : Prop :=
  (forall r k, In r df -> month_of when r = Some k -> lo <= k <= hi)
  /\ (exists r, In r df /\ month_of when r = Some lo)
  /\ (exists r, In r df /\ month_of when r = Some hi).

(** Chronological order of dates. *)
Definition date_lt (a b : Date) : Prop :=
  year a < year b
  \/ (year a = year b
      /\ (month_ord (month a) < month_ord (month b)
          \/ (month a = month b /\ day a < day b))).

(** The rows of [monthly_summary] and of [monthly_trend] for a month without
    any record. *)
Definition empty_summary_row (k : Z) : Summary.row :=
  {| Summary.date := month_end k;
     Summary.avg_delay := NaN;
     Summary.on_time_rate := NaN;
     Summary.cost_per_km := NaN;
     Summary.deliveries_per_vehicle := of_Z 0;
     Summary.fuel_cost_ratio := NaN |}.

Definition empty_trend_row (k : Z) : Trend.row :=
  {| Trend.date := month_end k;
     Trend.avg_delay := NaN;
     Trend.cost_per_km := NaN;
     Trend.month_name := strftime_bY (month_end k) |}.

(** Sum of a list of rationals. *)
Definition Qsum (qs : list Q) : Q := fold_right Qplus 0%Q qs.

(** Strict code-point order of strings. *)
Definition slt (a b : string) : Prop := String.compare a b = Lt.

(** The five deltas of a summary without a previous month. *)
Definition zero_mom_values : dict num :=
  [ ("avg_delay", of_Z 0);
    ("on_time_rate", of_Z 0);
    ("cost_per_km", of_Z 0);
    ("deliveries_per_vehicle", of_Z 0);
    ("fuel_cost_ratio", of_Z 0) ]%string.

(** Every row carries the label of its own date, as the loader writes it. *)
Definition labelled (df : DataFrame) : Prop :=
  forall r, In r df -> month_name r = option_map strftime_bY (date (event r)).

(** [gs] is the grouping of the rows [pre] by [key]: keys strictly ascending,
    each group the rows of its key in frame order, no empty group, and every
    row with a key in exactly one group. *)
Definition groups_of {A : Type} (key : A -> cell) (pre : list A)
  (gs : dict (list A)) : Prop :=
  StronglySorted slt (map fst gs)
  /\ (forall k rs,
        In (k, rs) gs <->
        rs = filter (fun r => cell_is (key r) k) pre /\ rs <> [])
  /\ (forall p : A -> bool,
        list_sum (map (fun g => List.length (filter p (snd g))) gs)
        = List.length (filter (fun r => notnull (key r) && p r) pre)).

(** * Properties *)

(** ** Arithmetic of [num] *)

#[local] Arguments Qred : simpl never.
#[local] Arguments Qplus : simpl never.
#[local] Arguments Qmult : simpl never.
#[local] Arguments Qdiv : simpl never.
#[local] Arguments Qopp : simpl never.

Lemma Qsgn_Eq_iff (q : Q) : Qsgn q = Eq <-> (q == 0)%Q.
Proof.
  unfold Qsgn, Qeq. rewrite Z.compare_eq_iff. simpl. lia.
Qed.

Lemma fmul_comm (x y : num) : fmul x y = fmul y x.
Proof.
  destruct x as [a| | |], y as [b| | |]; simpl; try reflexivity.
  f_equal. apply Qred_complete. ring.
Qed.

Lemma dropna_Fin (qs : list Q) : dropna (map Fin qs) = map Fin qs.
Proof.
  unfold dropna.
  induction qs as [|q qs IH]; simpl; [reflexivity|].
  now rewrite IH.
Qed.

Lemma fold_fadd_Fin (qs : list Q) (a : Q) :
  exists q, fold_left fadd (map Fin qs) (Fin a) = Fin q /\ (q == a + Qsum qs)%Q.
Proof.
  revert a. induction qs as [|x qs IH]; intros a; simpl.
  - exists a. split; [reflexivity | ring].
  - destruct (IH (Qred (a + x))) as [q [Hq Heq]].
    exists q. split; [exact Hq|].
    rewrite Heq, Qred_correct. ring.
Qed.

Lemma series_sum_Fin (qs : list Q) :
  exists q, series_sum (map Fin qs) = Fin q /\ (q == Qsum qs)%Q.
Proof.
  unfold series_sum, total. rewrite dropna_Fin.
  destruct (fold_fadd_Fin qs 0) as [q [Hq Heq]].
  exists q. split; [exact Hq|]. rewrite Heq. ring.
Qed.

(** ** KPI engine *)

(** C1: for every nonempty frame, the Cost per Kilometer KPI is the pandas sum
    of the total_cost column divided by the pandas sum of the distance_km
    column; on columns of finite numbers with a nonzero distance sum this is
    the rational (sum of costs) / (sum of distances).  For two rows with total
    costs 10 and 20 and distances 2 and 5 the KPI is 30/7, while the mean of
    the per-row cost_per_km values 5 and 4 is 9/2, a different number. *)
Theorem cost_per_km_ratio_of_sums (df : DataFrame) (Hne : df <> []) :
  getitem (calculate_kpis df) "Cost per Kilometer"
    = Ok (fdiv (series_sum (map total_cost df))
               (series_sum (map (fun r => distance_km (event r)) df)))
  /\ (forall costs dists : list Q,
        map total_cost df = map Fin costs ->
        map (fun r => distance_km (event r)) df = map Fin dists ->
        ~ (Qsum dists == 0)%Q ->
        exists q, getitem (calculate_kpis df) "Cost per Kilometer" = Ok (Fin q)
                  /\ (q == Qsum costs / Qsum dists)%Q)
  /\ (forall r1 r2 : EnrichedRecord,
        total_cost r1 = of_Z 10 -> total_cost r2 = of_Z 20 ->
        distance_km (event r1) = of_Z 2 -> distance_km (event r2) = of_Z 5 ->
        cost_per_km r1 = fdiv (total_cost r1) (distance_km (event r1)) ->
        cost_per_km r2 = fdiv (total_cost r2) (distance_km (event r2)) ->
        getitem (calculate_kpis [r1; r2]) "Cost per Kilometer" = Ok (Fin (30 # 7))
        /\ series_mean (map cost_per_km [r1; r2]) = Fin (9 # 2)
        /\ Fin (30 # 7) <> Fin (9 # 2)).
Proof.
  split; [reflexivity|]. split.
  - intros costs dists Hcosts Hdists Hnz.
    change (getitem (calculate_kpis df) "Cost per Kilometer")
      with (Ok (fdiv (series_sum (map total_cost df))
                     (series_sum (map (fun r => distance_km (event r)) df)))).
    rewrite Hcosts, Hdists.
    destruct (series_sum_Fin costs) as [c [Hc Hceq]].
    destruct (series_sum_Fin dists) as [d [Hd Hdeq]].
    rewrite Hc, Hd. simpl.
    destruct (Qsgn d) eqn:Hs.
    + apply Qsgn_Eq_iff in Hs. rewrite Hdeq in Hs. contradiction.
    + eexists. split; [reflexivity|]. rewrite Qred_correct, Hceq, Hdeq. reflexivity.
    + eexists. split; [reflexivity|]. rewrite Qred_correct, Hceq, Hdeq. reflexivity.
  - intros r1 r2 Hc1 Hc2 Hd1 Hd2 Hr1 Hr2. split; [|split].
    + change (getitem (calculate_kpis [r1; r2]) "Cost per Kilometer")
        with (Ok (fdiv (series_sum [total_cost r1; total_cost r2])
                       (series_sum [distance_km (event r1); distance_km (event r2)]))).
      rewrite Hc1, Hc2, Hd1, Hd2. reflexivity.
    + simpl map. rewrite Hr1, Hr2, Hc1, Hc2, Hd1, Hd2. reflexivity.
    + discriminate.
Qed.

Lemma cost_per_km_ratio_of_sums_witness :
  getitem (calculate_kpis [row_jan31; row_feb01]) "Cost per Kilometer"
    = Ok (Fin (30 # 7))
  /\ series_mean (map cost_per_km [row_jan31; row_feb01]) = Fin (9 # 2).
Proof.
  assert (Hne : [row_jan31; row_feb01] <> []) by discriminate.
  destruct (cost_per_km_ratio_of_sums [row_jan31; row_feb01] Hne) as [_ [_ H]].
  destruct (H row_jan31 row_feb01 eq_refl eq_refl eq_refl eq_refl eq_refl eq_refl)
    as [H1 [H2 _]].
  split; assumption.
Defined.

(** ** Filter stage *)

Lemma filter_swap {A : Type} (f g : A -> bool) (l : list A) :
  filter f (filter g l) = filter g (filter f l).
Proof.
  induction l as [|x l IH]; simpl; [reflexivity|].
  destruct (f x) eqn:Hf, (g x) eqn:Hg; simpl; rewrite ?Hf, ?Hg, IH; reflexivity.
Qed.

(** C7: the city filter and the month filter commute, the order used by
    [main] is one of the two, and the selection "All" leaves the frame
    unchanged on its dimension. *)
Theorem filters_commute (df : DataFrame) (c m : string) :
  filter_month m (filter_city c df) = filter_city c (filter_month m df)
  /\ apply_filters {| selected_city := c; selected_month := m |} df
     = filter_city c (filter_month m df)
  /\ filter_city "All" df = df
  /\ filter_month "All" df = df
  /\ apply_filters {| selected_city := "All"; selected_month := "All" |} df = df.
Proof.
  assert (Hcomm : filter_month m (filter_city c df) = filter_city c (filter_month m df)).
  { unfold filter_month, filter_city.
    destruct (negb (String.eqb m "All")), (negb (String.eqb c "All"));
      try reflexivity.
    apply filter_swap. }
  repeat split; try reflexivity; exact Hcomm.
Qed.


(** ** Record loader *)

Lemma cell_eqb_eq (a b : cell) : cell_eqb a b = true <-> a = b.
Proof.
  destruct a as [x|], b as [y|]; simpl; try (split; [discriminate | discriminate]);
    try tauto.
  rewrite String.eqb_eq. split; [intros ->; reflexivity | intros H; now injection H].
Qed.

Lemma cell_is_eq (c : cell) (v : string) : cell_is c v = true <-> c = Some v.
Proof.
  destruct c as [x|]; simpl; [|split; discriminate].
  rewrite String.eqb_eq. split; [intros ->; reflexivity | intros H; now injection H].
Qed.

Lemma event_derive (p : DeliveryEvent * option VehicleRecord) :
  event (derive p) = fst p.
Proof. destruct p; reflexivity. Qed.

Lemma unique_key_matches (k : cell) (fleet : list VehicleRecord) :
  NoDup (map fleet_vehicle_id fleet) ->
  (List.length (filter (fun v => cell_eqb (fleet_vehicle_id v) k) fleet) <= 1)%nat.
Proof.
  induction fleet as [|v fleet IH]; simpl; intros Hnd; [lia|].
  inversion Hnd as [|? ? Hnotin Hnd']; subst.
  destruct (cell_eqb (fleet_vehicle_id v) k) eqn:Hk; [|auto].
  apply cell_eqb_eq in Hk. simpl.
  assert (Hnone : filter (fun v0 => cell_eqb (fleet_vehicle_id v0) k) fleet = []).
  { destruct (filter _ fleet) as [|w ws] eqn:Hf; [reflexivity|].
    exfalso. apply Hnotin.
    assert (Hin : In w (filter (fun v0 => cell_eqb (fleet_vehicle_id v0) k) fleet))
      by (rewrite Hf; left; reflexivity).
    apply filter_In in Hin. destruct Hin as [Hin Hw].
    apply cell_eqb_eq in Hw. rewrite Hk, <- Hw. now apply in_map. }
  rewrite Hnone. simpl. lia.
Qed.

Lemma merge_left_unique (deliveries : list DeliveryEvent) (fleet : list VehicleRecord) :
  NoDup (map fleet_vehicle_id fleet) ->
  map fst (merge_left deliveries fleet) = deliveries.
Proof.
  intros Hnd. unfold merge_left.
  induction deliveries as [|d ds IH]; [reflexivity|].
  cbn [flat_map]. rewrite map_app, IH.
  pose proof (unique_key_matches (vehicle_id d) fleet Hnd) as Hle.
  destruct (filter _ fleet) as [|v [|v' vs]]; simpl in *; try reflexivity; lia.
Qed.

Lemma merge_left_unmatched (deliveries : list DeliveryEvent)
      (fleet : list VehicleRecord) (d : DeliveryEvent) (v : option VehicleRecord) :
  In (d, v) (merge_left deliveries fleet) ->
  ~ In (vehicle_id d) (map fleet_vehicle_id fleet) ->
  v = None.
Proof.
  unfold merge_left. rewrite in_flat_map. intros [d' [_ Hin]] Hno.
  destruct (filter _ fleet) as [|w ws] eqn:Hf.
  - destruct Hin as [Heq|[]]. now inversion Heq.
  - apply in_map_iff in Hin. destruct Hin as [u [Heq Hu]].
    inversion Heq; subst. exfalso. apply Hno.
    rewrite <- Hf in Hu. apply filter_In in Hu. destruct Hu as [Hu Hk].
    apply cell_eqb_eq in Hk. rewrite <- Hk. now apply in_map.
Qed.

(** C3, as the code has it: when no vehicle_id occurs twice in the registry,
    the loader returns exactly one row per delivery event, in the order of
    the delivery table, and a row whose vehicle_id is not in the registry has
    no vehicle_home_city. *)
Theorem left_join_row_count
  (deliveries : list DeliveryEvent) (fleet : list VehicleRecord)
  (Hunique : NoDup (map fleet_vehicle_id fleet)) :
  exists loaded,
    load_and_prepare_data {| deliveries_csv := Ok deliveries; fleet_csv := Ok fleet |}
      = Ok loaded
    /\ List.length (frame loaded) = List.length deliveries
    /\ map event (frame loaded) = deliveries
    /\ forall r, In r (frame loaded) ->
         ~ In (vehicle_id (event r)) (map fleet_vehicle_id fleet) ->
         vehicle_home_city r = None.
Proof.
  eexists. split; [reflexivity|]. simpl frame.
  assert (Hev : map event (map derive (merge_left deliveries fleet)) = deliveries).
  { rewrite map_map.
    rewrite (map_ext _ fst event_derive). now apply merge_left_unique. }
  repeat split.
  - rewrite <- Hev at 2. now rewrite !length_map.
  - exact Hev.
  - intros r Hin Hno. apply in_map_iff in Hin.
    destruct Hin as [[d v] [Hr Hin]]. subst r. simpl in *.
    now rewrite (merge_left_unmatched _ _ _ _ Hin Hno).
Qed.

Lemma left_join_row_count_witness :
  exists loaded,
    load_and_prepare_data sample_sources = Ok loaded
    /\ List.length (frame loaded) = 3%nat.
Proof.
  assert (Hnd : NoDup (map fleet_vehicle_id sample_fleet)).
  { simpl. constructor; [intros []|constructor]. }
  destruct (left_join_row_count
              [delivery_jan31; delivery_feb01; delivery_apr01] sample_fleet Hnd)
    as [loaded [Hload [Hlen _]]].
  exists loaded. split; [exact Hload | exact Hlen].
Defined.

(** C3, as stated, fails: with a registry that lists vehicle V1 twice, one
    delivery event of V1 gives two rows. *)
Lemma left_join_duplicate_registry :
  exists loaded,
    load_and_prepare_data
      {| deliveries_csv := Ok [delivery_jan31]; fleet_csv := Ok duplicated_fleet |}
      = Ok loaded
    /\ List.length (frame loaded) = 2%nat
    /\ List.length (frame loaded) <> List.length [delivery_jan31].
Proof.
  eexists. split; [reflexivity|]. split; [reflexivity|]. simpl. discriminate.
Qed.

(** ** Load failures *)

Lemma read_sources_missing (src : Sources) :
  read_sources src = Raise FileNotFoundError <->
  deliveries_csv src = Raise FileNotFoundError
  \/ (exists deliveries, deliveries_csv src = Ok deliveries)
     /\ fleet_csv src = Raise FileNotFoundError.
Proof.
  unfold read_sources, bind.
  destruct (deliveries_csv src) as [ds|e1], (fleet_csv src) as [fl|e2]; split;
    intros H;
    try discriminate;
    try (destruct H as [H|[[ds' H1] H2]]; try discriminate);
    try (injection H as ->);
    try (injection H2 as ->);
    try reflexivity;
    try (now left);
    try (right; split; [eexists; reflexivity | reflexivity]).
Qed.

(** C6, as the code has it: when the first read that fails raises
    FileNotFoundError, the loader shows the missing-files error and returns an
    empty frame, and [main] returns with that error box and nothing else.
    When it raises another exception, the exception leaves the loader and
    [main]; no page, hence no KPI, trend or breakdown, is produced. *)
Theorem missing_source_short_circuits
  (src : Sources) (sel : Selection) (e : exn)
  (Hfail : read_sources src = Raise e) :
  (e = FileNotFoundError ->
     load_and_prepare_data src
       = Ok {| shown := [missing_files_message]; frame := [] |}
     /\ main src sel = Ok {| errors := [missing_files_message]; body := None |})
  /\ (e <> FileNotFoundError ->
        load_and_prepare_data src = Raise e /\ main src sel = Raise e).
Proof.
  unfold main, load_and_prepare_data. rewrite Hfail. split.
  - intros ->. split; reflexivity.
  - intros Hne. destruct e; try contradiction; split; reflexivity.
Qed.

Lemma missing_source_short_circuits_witness :
  main missing_sources select_all
    = Ok {| errors := [missing_files_message]; body := None |}.
Proof.
  exact (proj2 (proj1 (missing_source_short_circuits
                         missing_sources select_all FileNotFoundError eq_refl)
                      eq_refl)).
Defined.

(** C6, as stated, fails: a delivery file that exists and cannot be read makes
    the loader raise PermissionError instead of showing the error and returning
    an empty frame, and [main] does not return a page. *)
Lemma unreadable_source_not_caught :
  read_sources unreadable_sources = Raise PermissionError
  /\ load_and_prepare_data unreadable_sources = Raise PermissionError
  /\ load_and_prepare_data unreadable_sources
     <> Ok {| shown := [missing_files_message]; frame := [] |}
  /\ main unreadable_sources select_all = Raise PermissionError
  /\ forall page, main unreadable_sources select_all <> Ok page.
Proof.
  repeat split; try reflexivity; try discriminate.
Qed.

(** C10, as the code has it: a missing source (a first failing read that
    raises FileNotFoundError) and a readable delivery file with no data row
    give [main] the same empty frame, and in both runs [main] returns before
    any KPI or chart is computed. *)
Theorem zero_rows_like_missing_source
  (src : Sources) (fleet : list VehicleRecord) (sel : Selection)
  (Hmissing : read_sources src = Raise FileNotFoundError) :
  exists failed empty,
    load_and_prepare_data src = Ok failed
    /\ load_and_prepare_data (zero_row_sources fleet) = Ok empty
    /\ frame failed = frame empty
    /\ df_empty (frame failed) = true
    /\ main src sel = Ok {| errors := shown failed; body := None |}
    /\ main (zero_row_sources fleet) sel = Ok {| errors := shown empty; body := None |}.
Proof.
  unfold main, load_and_prepare_data. rewrite Hmissing.
  do 2 eexists. repeat split.
Qed.

Lemma zero_rows_like_missing_source_witness :
  exists failed empty,
    load_and_prepare_data missing_sources = Ok failed
    /\ load_and_prepare_data (zero_row_sources sample_fleet) = Ok empty
    /\ frame failed = frame empty.
Proof.
  destruct (zero_rows_like_missing_source
              missing_sources sample_fleet select_all eq_refl)
    as [failed [empty [H1 [H2 [H3 _]]]]].
  exists failed, empty. repeat split; assumption.
Defined.

(** C10, as stated, fails for a source that cannot be parsed: [main] gets an
    exception from the loader, while for a delivery file with no data row it
    gets an empty frame and returns a page. *)
Lemma unparsable_source_distinguished :
  main unparsable_sources select_all = Raise ParserError
  /\ main (zero_row_sources sample_fleet) select_all
     = Ok {| errors := []; body := None |}
  /\ main unparsable_sources select_all
     <> main (zero_row_sources sample_fleet) select_all.
Proof.
  repeat split; try reflexivity. discriminate.
Qed.


(** ** Monthly resampling *)

Lemma month_ord_range (m : Month) : 0 <= month_ord m < 12.
Proof. destruct m; simpl; lia. Qed.

Lemma month_ord_of_ord (z : Z) : 0 <= z < 12 -> month_ord (month_of_ord z) = z.
Proof.
  intros Hz.
  assert (H : z = 0 \/ z = 1 \/ z = 2 \/ z = 3 \/ z = 4 \/ z = 5 \/ z = 6
              \/ z = 7 \/ z = 8 \/ z = 9 \/ z = 10 \/ z = 11) by lia.
  repeat (destruct H as [-> | H]; [reflexivity|]). now subst.
Qed.

Lemma month_index_month_end (k : Z) : month_index (month_end k) = k.
Proof.
  unfold month_index, month_end. cbn [year month].
  rewrite month_ord_of_ord by (apply Z.mod_pos_bound; lia).
  pose proof (Z.div_mod k 12). lia.
Qed.

Lemma month_index_lt_date_lt (a b : Date) :
  month_index a < month_index b -> date_lt a b.
Proof.
  unfold month_index, date_lt. intros H.
  pose proof (month_ord_range (month a)). pose proof (month_ord_range (month b)).
  destruct (Z.lt_trichotomy (year a) (year b)) as [Hy|[Hy|Hy]]; [now left | | lia].
  right. split; [exact Hy|]. left. lia.
Qed.

Lemma zrange_In (lo : Z) (n : nat) (k : Z) :
  In k (zrange lo n) <-> lo <= k < lo + Z.of_nat n.
Proof.
  unfold zrange. rewrite in_map_iff. split.
  - intros [i [<- Hi]]. apply in_seq in Hi. lia.
  - intros Hk. exists (Z.to_nat (k - lo)). split; [lia|]. apply in_seq. lia.
Qed.

Lemma zrange_snoc (lo : Z) (n : nat) :
  zrange lo (S n) = zrange lo n ++ [lo + Z.of_nat n].
Proof.
  unfold zrange. rewrite seq_S, map_app. reflexivity.
Qed.

Lemma zrange_sorted (lo : Z) (n : nat) : StronglySorted Z.lt (zrange lo n).
Proof.
  revert lo. induction n as [|n IH]; intros lo; [constructor|].
  unfold zrange. cbn [seq map]. constructor.
  - rewrite <- seq_shift, map_map.
    rewrite (map_ext _ (fun i => (lo + 1) + Z.of_nat i)) by (intros; lia).
    apply IH.
  - apply Forall_forall. intros k Hk. apply in_map_iff in Hk.
    destruct Hk as [i [<- Hi]]. apply in_seq in Hi. lia.
Qed.

Lemma fold_min_spec (k : Z) (ks : list Z) :
  In (fold_right Z.min k ks) (k :: ks)
  /\ forall x, In x (k :: ks) -> fold_right Z.min k ks <= x.
Proof.
  induction ks as [|y ks [IHin IHle]]; simpl.
  - split; [now left|]. intros x [->|[]]. lia.
  - split.
    + destruct (Z.min_spec y (fold_right Z.min k ks)) as [[_ ->]|[_ ->]].
      * right. now left.
      * simpl in IHin. destruct IHin as [H|H]; [now left | right; now right].
    + intros x [->|[->|Hx]].
      * specialize (IHle x (or_introl eq_refl)). lia.
      * lia.
      * specialize (IHle x (or_intror Hx)). lia.
Qed.

Lemma fold_max_spec (k : Z) (ks : list Z) :
  In (fold_right Z.max k ks) (k :: ks)
  /\ forall x, In x (k :: ks) -> x <= fold_right Z.max k ks.
Proof.
  induction ks as [|y ks [IHin IHle]]; simpl.
  - split; [now left|]. intros x [->|[]]. lia.
  - split.
    + destruct (Z.max_spec y (fold_right Z.max k ks)) as [[_ ->]|[_ ->]].
      * simpl in IHin. destruct IHin as [H|H]; [now left | right; now right].
      * right. now left.
    + intros x [->|[->|Hx]].
      * specialize (IHle x (or_introl eq_refl)). lia.
      * lia.
      * specialize (IHle x (or_intror Hx)). lia.
Qed.


Section Resample.
Context {A : Type}.
Variable when : A -> option Date.

Lemma dated_months_In (df : list A) (k : Z) :
  In k (dated_months when df) <-> exists r, In r df /\ month_of when r = Some k.
Proof.
  unfold dated_months. rewrite in_flat_map. split.
  - intros [r [Hr Hk]]. exists r. split; [exact Hr|].
    destruct (month_of when r) as [m|]; [|destruct Hk].
    destruct Hk as [->|[]]. reflexivity.
  - intros [r [Hr Hk]]. exists r. split; [exact Hr|]. rewrite Hk. now left.
Qed.

Lemma resample_M_spans (df : list A) (lo hi : Z) :
  spans when df lo hi ->
  resample_M when df
  = Ok (map (fun m => (m, filter (in_month when m) df))
            (zrange lo (Z.to_nat (hi - lo + 1)))).
Proof.
  intros [Hall [[rl [Hrl Hlo]] [rh [Hrh Hhi]]]].
  unfold resample_M.
  destruct (dated_months when df) as [|k ks] eqn:Hks.
  - assert (Hin : In lo (dated_months when df))
      by (apply dated_months_In; now exists rl).
    rewrite Hks in Hin. destruct Hin.
  - destruct (fold_min_spec k ks) as [Hmin_in Hmin_le].
    destruct (fold_max_spec k ks) as [Hmax_in Hmax_le].
    rewrite <- Hks in Hmin_in, Hmax_in, Hmin_le, Hmax_le.
    apply dated_months_In in Hmin_in. destruct Hmin_in as [r1 [Hin1 Hr1]].
    apply dated_months_In in Hmax_in. destruct Hmax_in as [r2 [Hin2 Hr2]].
    assert (Hl : fold_right Z.min k ks = lo).
    { pose proof (Hall r1 _ Hin1 Hr1) as Hb.
      assert (fold_right Z.min k ks <= lo)
        by (apply Hmin_le, dated_months_In; now exists rl).
      lia. }
    assert (Hh : fold_right Z.max k ks = hi).
    { pose proof (Hall r2 _ Hin2 Hr2) as Hb.
      assert (hi <= fold_right Z.max k ks)
        by (apply Hmax_le, dated_months_In; now exists rh).
      lia. }
    cbv zeta. rewrite Hl, Hh. reflexivity.
Qed.

(** A frame with a dated row spans the months between its two extreme dated
    rows. *)
Lemma spans_exists (df : list A) :
  dated_months when df <> [] -> exists lo hi, spans when df lo hi.
Proof.
  intros Hne.
  destruct (dated_months when df) as [|k ks] eqn:Hks; [contradiction|].
  destruct (fold_min_spec k ks) as [Hmin_in Hmin_le].
  destruct (fold_max_spec k ks) as [Hmax_in Hmax_le].
  rewrite <- Hks in Hmin_in, Hmax_in, Hmin_le, Hmax_le.
  exists (fold_right Z.min k ks), (fold_right Z.max k ks). split; [|split].
  - intros r m Hr Hm.
    assert (Hin : In m (dated_months when df))
      by (apply dated_months_In; now exists r).
    split; [now apply Hmin_le | now apply Hmax_le].
  - now apply dated_months_In in Hmin_in.
  - now apply dated_months_In in Hmax_in.
Qed.

Lemma dated_row_months (df : list A) (r : A) :
  In r df -> when r <> None -> dated_months when df <> [].
Proof.
  intros Hr Hd Hnil.
  destruct (when r) as [d|] eqn:Hw; [|contradiction].
  assert (Hin : In (month_index d) (dated_months when df)).
  { apply dated_months_In. exists r. split; [exact Hr|].
    unfold month_of. now rewrite Hw. }
  now rewrite Hnil in Hin.
Qed.

(** The chain returns exactly when some row has a date. *)
Lemma resample_M_returns (df : list A) :
  (dated_months when df <> [] ->
   exists lo hi,
     spans when df lo hi
     /\ resample_M when df
        = Ok (map (fun m => (m, filter (in_month when m) df))
                  (zrange lo (Z.to_nat (hi - lo + 1)))))
  /\ (dated_months when df = [] -> resample_M when df = Raise ValueError).
Proof.
  split.
  - intros Hne. destruct (spans_exists df Hne) as [lo [hi Hs]].
    exists lo, hi. split; [exact Hs | now apply resample_M_spans].
  - intros Hnil. unfold resample_M. now rewrite Hnil.
Qed.

Lemma resample_M_Ok (df : list A) (bins : list (Z * list A)) :
  resample_M when df = Ok bins ->
  exists lo hi,
    spans when df lo hi
    /\ bins = map (fun m => (m, filter (in_month when m) df))
                  (zrange lo (Z.to_nat (hi - lo + 1))).
Proof.
  intros Hok.
  destruct (dated_months when df) as [|k ks] eqn:Hks.
  - unfold resample_M in Hok. rewrite Hks in Hok. discriminate.
  - destruct (spans_exists df) as [lo [hi Hs]]; [rewrite Hks; discriminate|].
    exists lo, hi. split; [exact Hs|].
    rewrite (resample_M_spans _ _ _ Hs) in Hok. now injection Hok as <-.
Qed.

Lemma resample_M_keys_sorted (df : list A) (bins : list (Z * list A)) :
  resample_M when df = Ok bins -> StronglySorted Z.lt (map fst bins).
Proof.
  intros Hok. destruct (resample_M_Ok _ _ Hok) as [lo [hi [_ ->]]].
  rewrite map_map. cbn [fst]. rewrite map_id. apply zrange_sorted.
Qed.

(** A bin holds exactly the rows of its month. *)
Lemma resample_M_bin (df : list A) (bins : list (Z * list A)) (k : Z) (rows : list A) :
  resample_M when df = Ok bins ->
  In (k, rows) bins ->
  rows = filter (in_month when k) df.
Proof.
  intros Hok Hin. destruct (resample_M_Ok _ _ Hok) as [lo [hi [_ ->]]].
  apply in_map_iff in Hin. destruct Hin as [m [Heq _]]. now inversion Heq.
Qed.

(** Every dated row is in the bin of its month. *)
Lemma resample_M_row (df : list A) (bins : list (Z * list A)) (r : A) (k : Z) :
  resample_M when df = Ok bins ->
  In r df -> month_of when r = Some k ->
  In (k, filter (in_month when k) df) bins.
Proof.
  intros Hok Hin Hk. destruct (resample_M_Ok _ _ Hok) as [lo [hi [Hs ->]]].
  apply in_map_iff. exists k. split; [reflexivity|].
  apply zrange_In. destruct Hs as [Hall _]. specialize (Hall r k Hin Hk). lia.
Qed.

Lemma in_month_iff (k : Z) (r : A) :
  in_month when k r = true <-> month_of when r = Some k.
Proof.
  unfold in_month. destruct (month_of when r) as [m|]; [|split; discriminate].
  rewrite Z.eqb_eq. split; [intros ->; reflexivity | intros H; now injection H].
Qed.
End Resample.

Lemma StronglySorted_month_end (ks : list Z) :
  StronglySorted Z.lt ks -> StronglySorted date_lt (map month_end ks).
Proof.
  induction 1 as [|k ks Hs IH Hall]; simpl; constructor; [exact IH|].
  apply Forall_forall. intros d Hd. apply in_map_iff in Hd.
  destruct Hd as [k' [<- Hk']].
  apply month_index_lt_date_lt. rewrite !month_index_month_end.
  rewrite Forall_forall in Hall. now apply Hall.
Qed.

Lemma zrange_last_two (lo hi : Z) :
  lo < hi ->
  zrange lo (Z.to_nat (hi - lo + 1))
  = zrange lo (Z.to_nat (hi - lo - 1)) ++ [hi - 1; hi].
Proof.
  intros Hlt.
  replace (Z.to_nat (hi - lo + 1)) with (S (S (Z.to_nat (hi - lo - 1)))) by lia.
  rewrite !zrange_snoc, <- app_assoc. cbn [app].
  do 2 f_equal; [lia | f_equal; lia].
Qed.


(** ** Trend engine *)

Lemma prepare_chart_data_Ok (df : DataFrame) (charts : ChartData) :
  prepare_chart_data df = Ok charts ->
  exists bins,
    resample_M (fun r => date (event r)) df = Ok bins
    /\ delay_by_city charts
       = map (fun g => (fst g, series_mean (map delay_minutes (snd g))))
             (groupby delivery_city df)
    /\ cost_time_city charts
       = map (fun g =>
                {| CostTime.delivery_city := fst g;
                   CostTime.cost_per_km := series_mean (map cost_per_km (snd g));
                   CostTime.on_time_rate :=
                     fmul (bool_mean (map (fun r => on_time (event r)) (snd g)))
                          (of_Z 100) |})
             (groupby delivery_city df)
    /\ deliveries_per_vehicle_data charts
       = map (fun g => (fst g, count_ids (snd g)))
             (groupby (fun r => vehicle_id (event r)) df)
    /\ monthly_trend charts = map trend_bucket bins.
Proof.
  unfold prepare_chart_data.
  destruct (resample_M (fun r => date (event r)) df) as [bins|e]; cbn [bind];
    [|discriminate].
  intros H. injection H as <-. exists bins. repeat split.
Qed.

Lemma prepare_chart_data_returns (df : DataFrame) :
  (exists r, In r df /\ date (event r) <> None) ->
  exists charts, prepare_chart_data df = Ok charts.
Proof.
  intros [r [Hr Hd]].
  destruct (proj1 (resample_M_returns (fun r => date (event r)) df)
                  (dated_row_months _ df r Hr Hd)) as [lo [hi [_ Hok]]].
  unfold prepare_chart_data. rewrite Hok. cbn [bind]. eexists. reflexivity.
Qed.

(** C5: whenever the chart data is computed (which it is for every frame with
    a dated row), the monthly trend has one row per bucket of the resampling,
    holding the month-end date of the bucket, its label, and the mean delay
    and mean cost per km of the bucket's rows.  A bucket holds exactly the
    rows of the frame dated in its calendar month, and every dated row of the
    frame is in the bucket of its month; so a row dated 2024-01-31 and a row
    dated 2024-02-01 are in the buckets of January 2024 and February 2024 and
    in no common bucket.  The buckets, and the month-end dates of the trend
    rows, are in strictly ascending chronological order. *)
Theorem trend_groups_by_calendar_month (df : DataFrame) :
  ((exists r, In r df /\ date (event r) <> None) ->
   exists charts, prepare_chart_data df = Ok charts)
  /\ forall charts,
       prepare_chart_data df = Ok charts ->
       exists buckets : list (Z * DataFrame),
         monthly_trend charts
         = map (fun b =>
                  {| Trend.date := month_end (fst b);
                     Trend.avg_delay := series_mean (map delay_minutes (snd b));
                     Trend.cost_per_km := series_mean (map cost_per_km (snd b));
                     Trend.month_name := strftime_bY (month_end (fst b)) |})
               buckets
         /\ (forall k rows r,
               In (k, rows) buckets ->
               (In r rows <->
                In r df /\ option_map month_index (date (event r)) = Some k))
         /\ (forall r d,
               In r df -> date (event r) = Some d ->
               exists rows, In (month_index d, rows) buckets /\ In r rows)
         /\ (forall r1 r2,
               In r1 df -> In r2 df ->
               date (event r1) = Some (mkDate 2024 Jan 31) ->
               date (event r2) = Some (mkDate 2024 Feb 1) ->
               (exists rows1 rows2,
                  In (month_index (mkDate 2024 Jan 31), rows1) buckets
                  /\ In r1 rows1
                  /\ In (month_index (mkDate 2024 Feb 1), rows2) buckets
                  /\ In r2 rows2)
               /\ (forall k rows,
                     In (k, rows) buckets -> ~ (In r1 rows /\ In r2 rows)))
         /\ StronglySorted Z.lt (map fst buckets)
         /\ StronglySorted date_lt (map Trend.date (monthly_trend charts)).
Proof.
  split; [apply prepare_chart_data_returns|].
  intros charts Hok.
  destruct (prepare_chart_data_Ok df charts Hok) as [buckets [Hbins [_ [_ [_ Htrend]]]]].
  exists buckets.
  assert (Hbin : forall k rows r,
             In (k, rows) buckets ->
             (In r rows <->
              In r df /\ option_map month_index (date (event r)) = Some k)).
  { intros k rows r Hk. apply (resample_M_bin _ _ _ _ _ Hbins) in Hk. subst rows.
    rewrite filter_In, in_month_iff. reflexivity. }
  assert (Hcover : forall r d,
             In r df -> date (event r) = Some d ->
             exists rows, In (month_index d, rows) buckets /\ In r rows).
  { intros r d Hr Hd.
    assert (Hm : month_of (fun r => date (event r)) r = Some (month_index d))
      by (unfold month_of; now rewrite Hd).
    eexists. split; [exact (resample_M_row _ _ _ _ _ Hbins Hr Hm)|].
    apply filter_In. split; [exact Hr | now apply in_month_iff]. }
  split; [exact Htrend|]. split; [exact Hbin|]. split; [exact Hcover|].
  split; [|split].
  - intros r1 r2 Hin1 Hin2 Hd1 Hd2. split.
    + destruct (Hcover r1 _ Hin1 Hd1) as [rows1 [Hb1 Hr1]].
      destruct (Hcover r2 _ Hin2 Hd2) as [rows2 [Hb2 Hr2]].
      exists rows1, rows2. repeat split; assumption.
    + intros k rows Hk [Hr1 Hr2].
      apply (Hbin k rows r1 Hk) in Hr1. apply (Hbin k rows r2 Hk) in Hr2.
      destruct Hr1 as [_ Hk1], Hr2 as [_ Hk2].
      rewrite Hd1 in Hk1. rewrite Hd2 in Hk2. vm_compute in Hk1, Hk2. congruence.
  - exact (resample_M_keys_sorted _ _ _ Hbins).
  - rewrite Htrend, map_map.
    rewrite (map_ext _ (fun b => month_end (fst b))) by reflexivity.
    rewrite <- (map_map fst month_end).
    apply StronglySorted_month_end. exact (resample_M_keys_sorted _ _ _ Hbins).
Qed.

Lemma trend_groups_by_calendar_month_witness :
  exists charts,
    prepare_chart_data [row_jan31; row_feb01] = Ok charts
    /\ map Trend.month_name (monthly_trend charts)
       = ["Jan 2024"; "Feb 2024"]%string.
Proof.
  destruct (proj1 (trend_groups_by_calendar_month [row_jan31; row_feb01]))
    as [charts Hok].
  - exists row_jan31. split; [now left | discriminate].
  - exists charts. split; [exact Hok|].
    vm_compute in Hok. injection Hok as <-. reflexivity.
Defined.

(** ** Month-over-month deltas *)

Lemma ne0_false_iff (x : num) : ne0 x = false <-> is_zero x.
Proof.
  destruct x as [q| | |]; simpl; try (split; [discriminate | contradiction]).
  rewrite <- Qsgn_Eq_iff. destruct (Qsgn q); split; congruence.
Qed.

Lemma iloc_back_last_two {A : Type} (g : A -> num) (before : list A) (p c : A) :
  iloc_back 2 (map g (before ++ [p; c])) = g p
  /\ iloc_back 1 (map g (before ++ [p; c])) = g c.
Proof.
  unfold iloc_back. rewrite map_app, length_app. cbn [map List.length].
  split.
  - replace (List.length (map g before) + 2 - 2)%nat
      with (List.length (map g before)) by lia.
    apply nth_middle.
  - replace (List.length (map g before) + 2 - 1)%nat
      with (List.length (map g before ++ [g p])) by (rewrite length_app; simpl; lia).
    change (map g before ++ [g p; g c]) with (map g before ++ [g p] ++ [g c]).
    rewrite app_assoc. apply nth_middle.
Qed.

Lemma mom_of_defined (s : list Summary.row) (col : string) (get : Summary.row -> num) :
  Summary.column col = Ok get -> mom_of s col = Ok (delta_percent s get).
Proof.
  intros H. unfold mom_of, delta_percent. rewrite H.
  destruct (2 <=? List.length s)%nat; reflexivity.
Qed.

Lemma mom_values_of_defined (s : list Summary.row) :
  mom_values_of s
  = Ok [ ("avg_delay", delta_percent s Summary.avg_delay);
         ("on_time_rate", delta_percent s Summary.on_time_rate);
         ("cost_per_km", delta_percent s Summary.cost_per_km);
         ("deliveries_per_vehicle", delta_percent s Summary.deliveries_per_vehicle);
         ("fuel_cost_ratio", delta_percent s Summary.fuel_cost_ratio) ]%string.
Proof.
  unfold mom_values_of, summary_columns. cbn [mapM].
  rewrite (mom_of_defined s "avg_delay" Summary.avg_delay eq_refl).
  rewrite (mom_of_defined s "on_time_rate" Summary.on_time_rate eq_refl).
  rewrite (mom_of_defined s "cost_per_km" Summary.cost_per_km eq_refl).
  rewrite (mom_of_defined s "deliveries_per_vehicle" Summary.deliveries_per_vehicle eq_refl).
  rewrite (mom_of_defined s "fuel_cost_ratio" Summary.fuel_cost_ratio eq_refl).
  reflexivity.
Qed.

Lemma kpi_map_columns (name col : string) :
  getitem kpi_map name = Ok col -> In col summary_columns.
Proof.
  unfold kpi_map. cbn [getitem].
  repeat (destruct (String.eqb _ name);
          [intros H; injection H as <-; simpl; tauto|]).
  discriminate.
Qed.

Lemma mom_values_getitem (s : list Summary.row) (col : string) :
  In col summary_columns ->
  exists get,
    Summary.column col = Ok get
    /\ (mv <- mom_values_of s ;; getitem mv col) = Ok (delta_percent s get).
Proof.
  intros Hin. rewrite mom_values_of_defined. cbn [bind].
  simpl in Hin.
  repeat (destruct Hin as [<- | Hin]; [eexists; split; reflexivity|]).
  destruct Hin.
Qed.

Lemma delta_two_forms (x p : num) :
  ne0 p = true ->
  fmul (fdiv x p) (of_Z 100) = fmul (of_Z 100) (fdiv x p)
  /\ fmul (fdiv x p) (of_Z 100) = fdiv (fmul (of_Z 100) x) p.
Proof.
  intros Hp. split; [apply fmul_comm|].
  destruct x as [a| | |], p as [b| | |]; try reflexivity.
  - unfold ne0 in Hp. unfold fdiv, fmul, of_Z.
    destruct (Qsgn b) eqn:Hs; [discriminate| |];
      f_equal; apply Qred_complete; rewrite !Qred_correct;
      (field; intros Hb; apply Qsgn_Eq_iff in Hb; congruence).
  - unfold fdiv, fmul, of_Z. destruct (Qsgn b); reflexivity.
  - unfold fdiv, fmul, of_Z. destruct (Qsgn b); reflexivity.
Qed.

Lemma monthly_summary_Ok (df : DataFrame) (summary : list Summary.row) :
  monthly_summary df = Ok summary ->
  exists lo hi,
    spans (fun r => date (event r)) df lo hi
    /\ summary
       = map (fun k => summary_bucket
                         (k, map (fun r => (r, fuel_cost_ratio_of r))
                                 (rows_of_month df k)))
             (zrange lo (Z.to_nat (hi - lo + 1))).
Proof.
  unfold monthly_summary. intros Hok.
  destruct (resample_M (fun p : EnrichedRecord * num => date (event (fst p)))
                       (map (fun r => (r, fuel_cost_ratio_of r)) df))
    as [bins|e] eqn:Hbins; cbn [bind] in Hok; [|discriminate].
  injection Hok as <-.
  destruct (resample_M_Ok _ _ _ Hbins) as [lo [hi [[Hall [[pl [Hpl Hlo]] [ph [Hph Hhi]]]] ->]]].
  exists lo, hi. split.
  - split; [|split].
    + intros r k Hr Hk.
      apply (Hall (r, fuel_cost_ratio_of r) k); [|exact Hk].
      apply in_map_iff. now exists r.
    + apply in_map_iff in Hpl. destruct Hpl as [r [<- Hr]].
      exists r. split; [exact Hr | exact Hlo].
    + apply in_map_iff in Hph. destruct Hph as [r [<- Hr]].
      exists r. split; [exact Hr | exact Hhi].
  - rewrite map_map. apply map_ext. intros k.
    unfold rows_of_month. now rewrite filter_map_swap.
Qed.

Lemma spans_with_ratio (df : DataFrame) (lo hi : Z) :
  spans (fun r => date (event r)) df lo hi ->
  spans (fun p : EnrichedRecord * num => date (event (fst p)))
        (map (fun r => (r, fuel_cost_ratio_of r)) df) lo hi.
Proof.
  intros [Hall [[rl [Hrl Hlo]] [rh [Hrh Hhi]]]]. split; [|split].
  - intros p k Hp Hk. apply in_map_iff in Hp. destruct Hp as [r [<- Hr]].
    now apply (Hall r k).
  - exists (rl, fuel_cost_ratio_of rl). split; [|exact Hlo].
    apply in_map_iff. now exists rl.
  - exists (rh, fuel_cost_ratio_of rh). split; [|exact Hhi].
    apply in_map_iff. now exists rh.
Qed.

Lemma monthly_summary_spans (df : DataFrame) (lo hi : Z) :
  spans (fun r => date (event r)) df lo hi ->
  monthly_summary df
  = Ok (map (fun k => summary_bucket
                        (k, map (fun r => (r, fuel_cost_ratio_of r))
                                (rows_of_month df k)))
            (zrange lo (Z.to_nat (hi - lo + 1)))).
Proof.
  intros Hs. unfold monthly_summary.
  rewrite (resample_M_spans _ _ _ _ (spans_with_ratio _ _ _ Hs)). cbn [bind].
  rewrite map_map. f_equal. apply map_ext. intros k.
  unfold rows_of_month. now rewrite filter_map_swap.
Qed.

Lemma monthly_summary_returns (df : DataFrame) :
  (exists r, In r df /\ date (event r) <> None) ->
  exists summary, monthly_summary df = Ok summary.
Proof.
  intros [r [Hr Hd]].
  destruct (spans_exists (fun r => date (event r)) df
                         (dated_row_months _ df r Hr Hd)) as [lo [hi Hs]].
  rewrite (monthly_summary_spans _ _ _ Hs). eexists. reflexivity.
Qed.

Lemma monthly_summary_empty : monthly_summary [] = Raise ValueError.
Proof. reflexivity. Qed.

Lemma prepare_chart_data_spans (df : DataFrame) (lo hi : Z) :
  spans (fun r => date (event r)) df lo hi ->
  exists charts,
    prepare_chart_data df = Ok charts
    /\ monthly_trend charts
       = map (fun k => trend_bucket (k, rows_of_month df k))
             (zrange lo (Z.to_nat (hi - lo + 1))).
Proof.
  intros Hs. unfold prepare_chart_data.
  rewrite (resample_M_spans _ _ _ _ Hs). cbn [bind].
  eexists. split; [reflexivity|]. cbn [monthly_trend]. now rewrite map_map.
Qed.

(** C2: the month-over-month code of [main] (lines 172-191) on the filtered
    frame.  On the empty filtered frame the resample chain raises ValueError
    and no delta is computed.  On a frame with a dated row the summary is
    computed, and for each of the five KPIs the delta looked up as
    [mom_values[kpi_map[name]]] is 0 when the summary has fewer than two rows;
    otherwise, with [prev] and [curr] the column's values in the last two
    rows, it is 0 when [prev] is zero and 100 x (curr - prev) / prev when it
    is not.  A previous value 0 with a current value 5 gives the delta 0. *)
Theorem mom_delta_spec
  (df : DataFrame) (name col : string) (previous current : Summary.row)
  (Hk : getitem kpi_map name = Ok col) :
  (df = [] -> monthly_summary df = Raise ValueError)
  /\ ((exists r, In r df /\ date (event r) <> None) ->
      exists summary, monthly_summary df = Ok summary)
  /\ exists get,
       Summary.column col = Ok get
       /\ (forall summary,
             monthly_summary df = Ok summary ->
             exists mom,
               (mv <- mom_values_of summary ;; getitem mv col) = Ok mom
               /\ ((List.length summary < 2)%nat -> mom = of_Z 0)
               /\ (forall before prev curr,
                     summary = before ++ [prev; curr] ->
                     (is_zero (get prev) -> mom = of_Z 0)
                     /\ (~ is_zero (get prev) ->
                         mom = fmul (of_Z 100)
                                 (fdiv (fsub (get curr) (get prev)) (get prev))
                         /\ mom = fdiv (fmul (of_Z 100)
                                          (fsub (get curr) (get prev)))
                                       (get prev))))
       /\ (get previous = of_Z 0 -> get current = of_Z 5 ->
           mom_of [previous; current] col = Ok (of_Z 0)).
Proof.
  split; [intros ->; reflexivity|].
  split; [apply monthly_summary_returns|].
  destruct (mom_values_getitem [] col (kpi_map_columns _ _ Hk)) as [get [Hget _]].
  exists get. split; [exact Hget|]. split.
  - intros summary _.
    destruct (mom_values_getitem summary col (kpi_map_columns _ _ Hk))
      as [get' [Hget' Hmom]].
    rewrite Hget in Hget'. injection Hget' as <-.
    exists (delta_percent summary get). split; [exact Hmom|]. split.
    + intros Hlen. unfold delta_percent.
      destruct (2 <=? List.length summary)%nat eqn:Hle; [|reflexivity].
      apply Nat.leb_le in Hle. lia.
    + intros before prev curr Hs. unfold delta_percent. rewrite Hs.
      destruct (iloc_back_last_two get before prev curr) as [-> ->].
      replace (2 <=? List.length (before ++ [prev; curr]))%nat with true
        by (symmetry; apply Nat.leb_le; rewrite length_app; simpl; lia).
      cbv zeta. split.
      * intros Hz. apply ne0_false_iff in Hz. now rewrite Hz.
      * intros Hnz. destruct (ne0 (get prev)) eqn:Hp.
        -- destruct (delta_two_forms (fsub (get curr) (get prev)) (get prev) Hp)
             as [H1 H2].
           split; [exact H1 | exact H2].
        -- apply ne0_false_iff in Hp. contradiction.
  - intros Hp Hc. rewrite (mom_of_defined _ _ _ Hget).
    unfold delta_percent, iloc_back. simpl. rewrite Hp. reflexivity.
Qed.

Lemma mom_delta_spec_witness :
  monthly_summary (apply_filters select_lagos_feb sample_frame) = Raise ValueError
  /\ exists summary, monthly_summary sample_frame = Ok summary.
Proof.
  destruct (mom_delta_spec (apply_filters select_lagos_feb sample_frame)
              "Deliveries per Vehicle" "deliveries_per_vehicle"
              (empty_summary_row 0) (empty_summary_row 0) eq_refl)
    as [Hraise _].
  destruct (mom_delta_spec sample_frame
              "Deliveries per Vehicle" "deliveries_per_vehicle"
              (empty_summary_row 0) (empty_summary_row 0) eq_refl)
    as [_ [Hret _]].
  split; [exact (Hraise eq_refl)|].
  apply Hret. exists row_jan31. split; [now left | discriminate].
Defined.

Lemma rows_of_month_none (df : DataFrame) (k : Z) :
  (forall r, In r df -> option_map month_index (date (event r)) <> Some k) ->
  rows_of_month df k = [].
Proof.
  intros Hno. unfold rows_of_month.
  destruct (filter _ df) as [|r rs] eqn:Hf; [reflexivity|].
  assert (Hin : In r (filter (in_month (fun r => date (event r)) k) df))
    by (rewrite Hf; now left).
  apply filter_In in Hin. destruct Hin as [Hin Hk].
  apply in_month_iff in Hk. now apply Hno in Hin.
Qed.

Lemma delta_after_gap (s : list Summary.row) (before : list Summary.row)
      (k : Z) (current : Summary.row) (get : Summary.row -> num) :
  s = before ++ [empty_summary_row k; current] ->
  delta_percent s get
  = if ne0 (get (empty_summary_row k))
    then fmul (fdiv (fsub (get current) (get (empty_summary_row k)))
                    (get (empty_summary_row k))) (of_Z 100)
    else of_Z 0.
Proof.
  intros ->. unfold delta_percent.
  destruct (iloc_back_last_two get before (empty_summary_row k) current) as [-> ->].
  replace (2 <=? List.length (before ++ [empty_summary_row k; current]))%nat with true
    by (symmetry; apply Nat.leb_le; rewrite length_app; simpl; lia).
  reflexivity.
Qed.

Lemma delta_prev_nan (c : num) : fmul (fdiv (fsub c NaN) NaN) (of_Z 100) = NaN.
Proof. destruct c; reflexivity. Qed.

(** C9: with [lo] and [hi] the months of the earliest and of the latest
    dated record, the monthly summary and the monthly trend are computed and
    have one row per calendar month from [lo] to [hi]; a month without
    records has the row with undefined means and a delivery count of 0.  When
    the month before the latest one has no record, that empty row is the
    second-to-last row of the summary, so every delta is computed against it:
    NaN for the four mean columns and 0 for the delivery count. *)
Theorem resample_keeps_empty_months
  (df : DataFrame) (lo hi : Z)
  (Hspan : spans (fun r => date (event r)) df lo hi) :
  let months := zrange lo (Z.to_nat (hi - lo + 1)) in
  exists summary charts,
    monthly_summary df = Ok summary
    /\ prepare_chart_data df = Ok charts
    /\ map Summary.date summary = map month_end months
    /\ map Trend.date (monthly_trend charts) = map month_end months
    /\ (forall k,
          lo <= k <= hi ->
          (forall r, In r df ->
                     option_map month_index (date (event r)) <> Some k) ->
          In (empty_summary_row k) summary
          /\ In (empty_trend_row k) (monthly_trend charts))
    /\ (lo < hi ->
        (forall r, In r df ->
                   option_map month_index (date (event r)) <> Some (hi - 1)) ->
        exists before current,
          summary = before ++ [empty_summary_row (hi - 1); current]
          /\ Summary.date current = month_end hi
          /\ Summary.deliveries_per_vehicle current
             = of_nat (count_ids (rows_of_month df hi))
          /\ mom_values_of summary
             = Ok [ ("avg_delay", NaN);
                    ("on_time_rate", NaN);
                    ("cost_per_km", NaN);
                    ("deliveries_per_vehicle", of_Z 0);
                    ("fuel_cost_ratio", NaN) ]%string).
Proof.
  intros months. subst months.
  destruct (prepare_chart_data_spans _ _ _ Hspan) as [charts [Hcharts Htrend]].
  eexists. exists charts.
  split; [exact (monthly_summary_spans _ _ _ Hspan)|].
  split; [exact Hcharts|]. rewrite Htrend.
  split; [|split; [|split]].
  - rewrite map_map. reflexivity.
  - rewrite map_map. reflexivity.
  - intros k Hk Hno.
    assert (Hin : In k (zrange lo (Z.to_nat (hi - lo + 1)))) by (apply zrange_In; lia).
    split; apply in_map_iff; exists k; (split; [|exact Hin]);
      rewrite (rows_of_month_none _ _ Hno); reflexivity.
  - intros Hlt Hgap.
    assert (Hsum : map (fun k => summary_bucket
                                   (k, map (fun r => (r, fuel_cost_ratio_of r))
                                           (rows_of_month df k)))
                       (zrange lo (Z.to_nat (hi - lo + 1)))
                   = map (fun k => summary_bucket
                                     (k, map (fun r => (r, fuel_cost_ratio_of r))
                                             (rows_of_month df k)))
                         (zrange lo (Z.to_nat (hi - lo - 1)))
                     ++ [empty_summary_row (hi - 1);
                         summary_bucket
                           (hi, map (fun r => (r, fuel_cost_ratio_of r))
                                    (rows_of_month df hi))]).
    { rewrite (zrange_last_two _ _ Hlt), map_app. cbn [map].
      now rewrite (rows_of_month_none _ _ Hgap). }
    do 2 eexists. split; [exact Hsum|]. split; [reflexivity|]. split.
    + cbn [summary_bucket Summary.deliveries_per_vehicle snd fst].
      rewrite map_map. cbn [fst]. now rewrite map_id.
    + rewrite mom_values_of_defined.
      rewrite !(delta_after_gap _ _ _ _ _ Hsum).
      cbn [empty_summary_row Summary.avg_delay Summary.on_time_rate
           Summary.cost_per_km Summary.deliveries_per_vehicle
           Summary.fuel_cost_ratio ne0].
      rewrite !delta_prev_nan. reflexivity.
Qed.

Lemma resample_keeps_empty_months_witness :
  exists summary,
    monthly_summary sample_frame = Ok summary
    /\ mom_values_of summary
       = Ok [ ("avg_delay", NaN);
              ("on_time_rate", NaN);
              ("cost_per_km", NaN);
              ("deliveries_per_vehicle", of_Z 0);
              ("fuel_cost_ratio", NaN) ]%string.
Proof.
  assert (Hspan : spans (fun r => date (event r)) sample_frame 24288 24291).
  { split; [|split].
    - intros r k [<-|[<-|[<-|[]]]] Hk; vm_compute in Hk; injection Hk as <-;
        split; discriminate.
    - exists row_jan31. split; [now left | reflexivity].
    - eexists. split; [right; right; left; reflexivity | reflexivity]. }
  pose proof (resample_keeps_empty_months sample_frame 24288 24291 Hspan) as H.
  cbv zeta in H. destruct H as [summary [charts [Hsum [_ [_ [_ [_ H]]]]]]].
  assert (Hlt : 24288 < 24291) by lia.
  assert (Hgap : forall r, In r sample_frame ->
                           option_map month_index (date (event r)) <> Some (24291 - 1)).
  { intros r [<-|[<-|[<-|[]]]]; vm_compute; discriminate. }
  destruct (H Hlt Hgap) as [before [current [_ [_ [_ Hmom]]]]].
  exists summary. split; [exact Hsum | exact Hmom].
Defined.

(** ** Empty selections *)

Lemma calculate_kpis_empty :
  calculate_kpis []
  = [ ("Average Delay", NaN);
      ("On-Time Rate", NaN);
      ("Cost per Kilometer", NaN);
      ("Deliveries per Vehicle", NaN);
      ("Fuel Cost Ratio", NaN) ]%string.
Proof. reflexivity. Qed.

(** C4: when the selection matches no row of a loaded, nonempty frame, the
    filtered frame is empty and each of the five KPI values is NaN, but the
    resample chain of the monthly summary raises ValueError on the empty
    frame: [main] returns no page, and when the two sidebar lists could be
    sorted the exception that leaves [main] is that ValueError. *)
Theorem empty_selection_raises
  (src : Sources) (sel : Selection) (loaded : Loaded)
  (Hload : load_and_prepare_data src = Ok loaded)
  (Hrows : frame loaded <> [])
  (Hnone : apply_filters sel (frame loaded) = []) :
  calculate_kpis (apply_filters sel (frame loaded))
    = [ ("Average Delay", NaN);
        ("On-Time Rate", NaN);
        ("Cost per Kilometer", NaN);
        ("Deliveries per Vehicle", NaN);
        ("Fuel Cost Ratio", NaN) ]%string
  /\ monthly_summary (apply_filters sel (frame loaded)) = Raise ValueError
  /\ prepare_chart_data (apply_filters sel (frame loaded)) = Raise ValueError
  /\ (forall page, main src sel <> Ok page)
  /\ (forall cities months,
        py_sorted (unique (map delivery_city (frame loaded))) = Ok cities ->
        py_sorted (unique (map month_name (frame loaded))) = Ok months ->
        main src sel = Raise ValueError).
Proof.
  rewrite Hnone. split; [reflexivity|]. split; [reflexivity|].
  split; [reflexivity|].
  unfold main. rewrite Hload. cbn [bind].
  destruct (frame loaded) as [|r rs] eqn:Hf; [contradiction|].
  cbn [df_empty]. rewrite Hnone. split.
  - intros page.
    destruct (py_sorted (unique (map delivery_city (r :: rs)))); cbn [bind];
      [|discriminate].
    destruct (py_sorted (unique (map month_name (r :: rs)))); cbn [bind];
      discriminate.
  - intros cities months -> ->. reflexivity.
Qed.

Lemma empty_selection_raises_witness :
  main sample_sources select_lagos_feb = Raise ValueError.
Proof.
  assert (Hrows : frame {| shown := []; frame := sample_frame |} <> [])
    by discriminate.
  destruct (empty_selection_raises
              sample_sources select_lagos_feb
              {| shown := []; frame := sample_frame |}
              eq_refl Hrows eq_refl) as [_ [_ [_ [_ H]]]].
  exact (H _ _ eq_refl eq_refl).
Defined.

(** ** Reruns *)

Section MemoFacts.
Context {K V : Type}.
Variable K_eq_dec : forall x y : K, {x = y} + {x <> y}.
Variable f : K -> result V.

Lemma memo_sound_nil : memo_sound K_eq_dec f [].
Proof. intros k v H. discriminate. Qed.

Lemma cache_data_sound (k : K) (c : memo) :
  memo_sound K_eq_dec f c ->
  fst (cache_data K_eq_dec f k c) = f k
  /\ memo_sound K_eq_dec f (snd (cache_data K_eq_dec f k c)).
Proof.
  intros Hc. unfold cache_data.
  destruct (memo_find K_eq_dec c k) as [v|] eqn:Hfind; cbn [fst snd].
  - split; [symmetry; now apply Hc | exact Hc].
  - destruct (f k) as [v|e] eqn:Hf; cbn [fst snd]; (split; [reflexivity|]);
      [|exact Hc].
    intros k' v' H. cbn [memo_find] in H.
    destruct (K_eq_dec k k') as [<-|Hne].
    + injection H as <-. exact Hf.
    + now apply Hc.
Qed.
End MemoFacts.

Lemma empty_cache_coherent (src : Sources) : coherent src empty_cache.
Proof.
  split; [intros loaded H; discriminate|].
  split; apply memo_sound_nil.
Qed.

(** A run through a coherent cache returns what [main] computes, and leaves a
    coherent cache. *)
Lemma main_cached_main (src : Sources) (sel : Selection) (c : Cache) :
  coherent src c ->
  fst (main_cached src sel c) = main src sel
  /\ coherent src (snd (main_cached src sel c)).
Proof.
  intros [Hload [Hkpi Hchart]].
  assert (Hstep : exists c1,
             cached_load_and_prepare_data src c = (load_and_prepare_data src, c1)
             /\ coherent src c1).
  { unfold cached_load_and_prepare_data.
    destruct (load_memo c) as [l|] eqn:Hl.
    - exists c. rewrite (Hload l eq_refl). split; [reflexivity|].
      split; [|split]; try assumption. intros l' Hl'. rewrite Hl in Hl'.
      apply Hload. now rewrite Hl'.
    - destruct (load_and_prepare_data src) as [l|e] eqn:Hr.
      + eexists. split; [reflexivity|].
        split; [|split]; cbn; try assumption. intros l' Hl'. now injection Hl' as <-.
      + exists c. split; [reflexivity|].
        split; [|split]; try assumption. intros l' Hl'. rewrite Hl in Hl'. discriminate. }
  destruct Hstep as [c1 [Hrun [Hload1 [Hkpi1 Hchart1]]]].
  unfold main_cached, main, run_bind, coherent. rewrite Hrun.
  destruct (load_and_prepare_data src) as [loaded|e]; cbn [bind fst snd];
    [|split; [reflexivity | split; [|split]; assumption]].
  destruct (df_empty (frame loaded));
    [split; [reflexivity | split; [|split]; assumption]|].
  unfold run_lift, run_ret.
  destruct (py_sorted (unique (map delivery_city (frame loaded)))) as [cities|e];
    cbn [bind fst snd]; [|split; [reflexivity | split; [|split]; assumption]].
  destruct (py_sorted (unique (map month_name (frame loaded)))) as [months|e];
    cbn [bind fst snd]; [|split; [reflexivity | split; [|split]; assumption]].
  set (df := apply_filters sel (frame loaded)).
  unfold cached_calculate_kpis, cached_prepare_chart_data.
  destruct (cache_data_sound DataFrame_eq_dec (fun d => Ok (calculate_kpis d))
                             df (kpi_memo c1) Hkpi1) as [Hv Hm].
  destruct (cache_data DataFrame_eq_dec (fun d => Ok (calculate_kpis d))
                       df (kpi_memo c1)) as [v m].
  cbn [fst snd] in Hv, Hm. subst v.
  destruct (monthly_summary df) as [summary|e]; cbn [bind fst snd];
    [|split; [reflexivity | split; [|split]; assumption]].
  destruct (mom_values_of summary) as [mv|e]; cbn [bind fst snd];
    [|split; [reflexivity | split; [|split]; assumption]].
  destruct (kpi_cards (calculate_kpis df) mv) as [cs|e]; cbn [bind fst snd];
    [|split; [reflexivity | split; [|split]; assumption]].
  cbn [chart_memo load_memo kpi_memo].
  destruct (cache_data_sound DataFrame_eq_dec prepare_chart_data df
                             (chart_memo c1) Hchart1) as [Hv' Hm'].
  destruct (cache_data DataFrame_eq_dec prepare_chart_data df (chart_memo c1))
    as [v' m'].
  cbn [fst snd] in Hv', Hm'. subst v'.
  destruct (prepare_chart_data df) as [charts|e]; cbn [bind fst snd];
    (split; [reflexivity | split; [|split]; assumption]).
Qed.

(** C8, as the code has it: two runs of [main] with the same source contents
    and the same selection return the same page when the cache each of them
    starts from holds only results computed from these source contents (a
    fresh process, or one whose earlier runs read the same contents); in
    particular a run and its immediate rerun do. *)
Theorem rerun_gives_same_page
  (src : Sources) (sel : Selection) (c1 c2 : Cache)
  (Hc1 : coherent src c1) (Hc2 : coherent src c2) :
  fst (main_cached src sel c1) = fst (main_cached src sel c2)
  /\ fst (main_cached src sel (snd (main_cached src sel c1)))
     = fst (main_cached src sel c1)
  /\ fst (main_cached src sel c1) = main src sel.
Proof.
  destruct (main_cached_main src sel c1 Hc1) as [H1 Hc1'].
  destruct (main_cached_main src sel c2 Hc2) as [H2 _].
  destruct (main_cached_main src sel _ Hc1') as [H3 _].
  repeat split; congruence.
Qed.

Lemma rerun_gives_same_page_witness :
  fst (main_cached sample_sources select_all
         (snd (main_cached sample_sources select_all empty_cache)))
  = fst (main_cached sample_sources select_all empty_cache).
Proof.
  exact (proj1 (proj2 (rerun_gives_same_page
                         sample_sources select_all empty_cache empty_cache
                         (empty_cache_coherent sample_sources)
                         (empty_cache_coherent sample_sources)))).
Defined.

(** C8, as stated, fails: with the same source files and the same selection,
    a run in a process whose first run found fleet.csv missing shows the
    cached missing-files page, and a run in a fresh process shows the
    dashboard. *)
Lemma stale_run_differs :
  fst (main_cached sample_sources select_all stale_cache)
    = Ok {| errors := [missing_files_message]; body := None |}
  /\ (exists bundle,
        fst (main_cached sample_sources select_all empty_cache)
        = Ok {| errors := []; body := Some bundle |})
  /\ fst (main_cached sample_sources select_all stale_cache)
     <> fst (main_cached sample_sources select_all empty_cache).
Proof.
  split; [reflexivity|]. split.
  - eexists. vm_compute. reflexivity.
  - vm_compute. discriminate.
Qed.

(** * Further properties of the pipeline *)

(** ** Order of strings *)

Lemma ascii_compare_refl (a : ascii) : Ascii.compare a a = Eq.
Proof. unfold Ascii.compare. apply N.compare_refl. Qed.

Lemma string_compare_refl (s : string) : String.compare s s = Eq.
Proof.
  induction s as [|a s IH]; simpl; [reflexivity|].
  now rewrite ascii_compare_refl.
Qed.

Lemma slt_irrefl (s : string) : ~ slt s s.
Proof. unfold slt. rewrite string_compare_refl. discriminate. Qed.

Lemma slt_trans (a b c : string) : slt a b -> slt b c -> slt a c.
Proof.
  unfold slt. revert b c.
  induction a as [|x a IH]; intros [|y b] [|z c]; simpl; try discriminate; auto.
  unfold Ascii.compare.
  destruct (N.compare_spec (N_of_ascii x) (N_of_ascii y)) as [Hxy|Hxy|Hxy];
    try discriminate;
    destruct (N.compare_spec (N_of_ascii y) (N_of_ascii z)) as [Hyz|Hyz|Hyz];
    try discriminate; intros H1 H2.
  - rewrite Hxy, Hyz, N.compare_refl. eauto.
  - rewrite Hxy. now apply N.compare_lt_iff in Hyz as ->.
  - rewrite <- Hyz. now apply N.compare_lt_iff in Hxy as ->.
  - assert (Hxz : (N_of_ascii x < N_of_ascii z)%N) by (eapply N.lt_trans; eauto).
    now apply N.compare_lt_iff in Hxz as ->.
Qed.

Lemma compare_Gt_slt (a b : string) : String.compare a b = Gt -> slt b a.
Proof.
  unfold slt. intros H. rewrite String.compare_antisym, H. reflexivity.
Qed.

Lemma compare_Eq_eq (a b : string) : String.compare a b = Eq <-> a = b.
Proof.
  split; [apply String.compare_eq_iff | intros ->; apply string_compare_refl].
Qed.

Lemma slt_neq (a b : string) : slt a b -> a <> b.
Proof. intros H ->. now apply slt_irrefl in H. Qed.

Lemma StronglySorted_slt_NoDup (ks : list string) :
  StronglySorted slt ks -> NoDup ks.
Proof.
  induction 1 as [|k ks Hs IH Hall]; constructor; [|exact IH].
  intros Hin. rewrite Forall_forall in Hall. now apply Hall, slt_irrefl in Hin.
Qed.

(** ** Grouping *)

Section Groupby.
Context {A : Type}.
Variable key : A -> cell.

Lemma in_keys (k : string) (rs : list A) (gs : dict (list A)) :
  In (k, rs) gs -> In k (map fst gs).
Proof. intros H. now apply (in_map fst) in H. Qed.

Lemma group_insert_keys (k : string) (r : A) (gs : dict (list A)) (x : string) :
  In x (map fst (group_insert k r gs)) <-> x = k \/ In x (map fst gs).
Proof.
  induction gs as [|[k0 rs0] t IH]; simpl.
  - intuition.
  - destruct (String.compare k k0) eqn:Hc; simpl.
    + apply compare_Eq_eq in Hc. subst k0. intuition.
    + intuition.
    + rewrite IH. intuition.
Qed.

Lemma group_insert_sorted (k : string) (r : A) (gs : dict (list A)) :
  StronglySorted slt (map fst gs) ->
  StronglySorted slt (map fst (group_insert k r gs)).
Proof.
  induction gs as [|[k0 rs0] t IH]; simpl; intros Hs.
  - repeat constructor.
  - apply StronglySorted_inv in Hs. destruct Hs as [Hs Hall].
    destruct (String.compare k k0) eqn:Hc; simpl.
    + constructor; assumption.
    + constructor; [constructor; assumption|].
      constructor; [exact Hc|].
      rewrite Forall_forall in *. intros x Hx.
      apply (slt_trans k k0 x); [exact Hc | now apply Hall].
    + constructor; [now apply IH|].
      rewrite Forall_forall in *. intros x Hx.
      apply group_insert_keys in Hx. destruct Hx as [->|Hx].
      * now apply compare_Gt_slt.
      * now apply Hall.
Qed.

Lemma group_insert_other (k : string) (r : A) (gs : dict (list A))
      (k' : string) (rs' : list A) :
  k' <> k ->
  (In (k', rs') (group_insert k r gs) <-> In (k', rs') gs).
Proof.
  intros Hne. induction gs as [|[k0 rs0] t IH]; simpl.
  - split; [intros [H|[]]; inversion H; congruence | intros []].
  - destruct (String.compare k k0) eqn:Hc; simpl.
    + apply compare_Eq_eq in Hc. subst k0.
      split; (intros [H|H]; [inversion H; congruence | now right]).
    + split; [intros [H|H]; [inversion H; congruence | exact H] | intros H; now right].
    + rewrite IH. reflexivity.
Qed.

Lemma group_insert_same (k : string) (r : A) (gs : dict (list A)) (rs' : list A) :
  StronglySorted slt (map fst gs) ->
  (In (k, rs') (group_insert k r gs) <->
   (exists rs, In (k, rs) gs /\ rs' = rs ++ [r])
   \/ (~ In k (map fst gs) /\ rs' = [r])).
Proof.
  induction gs as [|[k0 rs0] t IH]; simpl; intros Hs.
  - split.
    + intros [H|[]]. inversion H. right. split; [tauto | reflexivity].
    + intros [[rs [H _]]|[_ ->]]; [destruct H | now left].
  - apply StronglySorted_inv in Hs. destruct Hs as [Hs Hall].
    rewrite Forall_forall in Hall.
    destruct (String.compare k k0) eqn:Hc; simpl.
    + apply compare_Eq_eq in Hc. subst k0.
      assert (Hnot : forall rs, ~ In (k, rs) t).
      { intros rs Hin. apply in_keys, Hall in Hin. now apply slt_irrefl in Hin. }
      split.
      * intros [H|H]; [|now apply Hnot in H].
        inversion H. left. exists rs0. split; [now left | reflexivity].
      * intros [[rs [[H|H] ->]]|[Hno _]].
        -- inversion H. now left.
        -- now apply Hnot in H.
        -- exfalso. apply Hno. now left.
    + assert (Hnot : ~ (k0 = k \/ In k (map fst t))).
      { intros [->|Hin]; [now apply slt_irrefl in Hc|].
        apply Hall in Hin. apply (slt_irrefl k). now apply (slt_trans k k0 k). }
      split.
      * intros [H|[H|H]].
        -- inversion H. right. split; [exact Hnot | reflexivity].
        -- inversion H. subst. exfalso. apply Hnot. now left.
        -- exfalso. apply Hnot. right. now apply in_keys in H.
      * intros [[rs [[H|H] _]]|[_ ->]].
        -- inversion H. subst. exfalso. apply Hnot. now left.
        -- exfalso. apply Hnot. right. now apply in_keys in H.
        -- now left.
    + assert (Hne : k0 <> k).
      { intros ->. rewrite string_compare_refl in Hc. discriminate. }
      rewrite (IH Hs). split.
      * intros [H|[[rs [Hin ->]]|[Hno ->]]].
        -- inversion H. congruence.
        -- left. exists rs. split; [now right | reflexivity].
        -- right. split; [|reflexivity]. intros [H|H]; [now apply Hne | now apply Hno].
      * intros [[rs [[H|H] ->]]|[Hno ->]].
        -- inversion H. congruence.
        -- right. left. now exists rs.
        -- right. right. split; [|reflexivity]. intros H. apply Hno. now right.
Qed.


Lemma group_insert_count (p : A -> bool) (k : string) (r : A) (gs : dict (list A)) :
  list_sum (map (fun g => List.length (filter p (snd g))) (group_insert k r gs))
  = ((if p r then 1 else 0)
     + list_sum (map (fun g => List.length (filter p (snd g))) gs))%nat.
Proof.
  induction gs as [|[k0 rs0] t IH]; simpl.
  - destruct (p r); reflexivity.
  - destruct (String.compare k k0); simpl.
    + rewrite filter_app, length_app. simpl. destruct (p r); simpl; lia.
    + destruct (p r); simpl; lia.
    + rewrite IH. lia.
Qed.

Lemma groups_of_step (pre : list A) (gs : dict (list A)) (r : A) :
  groups_of key pre gs ->
  groups_of key (pre ++ [r])
            (match key r with Some k => group_insert k r gs | None => gs end).
Proof.
  intros [Hs [Hin Hcount]].
  destruct (key r) as [kr|] eqn:Hkr.
  - split; [now apply group_insert_sorted|]. split.
    + intros k rs. rewrite filter_app. cbn [filter]. rewrite Hkr. cbn [cell_is].
      destruct (String.eqb kr k) eqn:Hk.
      * apply String.eqb_eq in Hk. subst k.
        rewrite (group_insert_same _ _ _ _ Hs). split.
        -- intros [[rs0 [H0 ->]]|[Hno ->]].
           ++ apply Hin in H0. destruct H0 as [-> _].
              split; [reflexivity | now destruct (filter _ pre)].
           ++ split; [|discriminate].
              destruct (filter (fun r0 => cell_is (key r0) kr) pre) as [|x xs] eqn:Hf;
                [reflexivity|].
              exfalso. apply Hno. apply (in_keys _ (x :: xs)). apply Hin.
              split; [now rewrite Hf | discriminate].
        -- intros [-> _].
           destruct (filter (fun r0 => cell_is (key r0) kr) pre) as [|x xs] eqn:Hf.
           ++ right. split; [|reflexivity]. intros Hk.
              apply in_map_iff in Hk. destruct Hk as [[k0 rs0] [Hk0 Hg]].
              simpl in Hk0. subst k0. apply Hin in Hg. destruct Hg as [Hg Hne].
              rewrite Hf in Hg. contradiction.
           ++ left. exists (x :: xs). split; [|reflexivity].
              apply Hin. split; [now rewrite Hf | discriminate].
      * apply String.eqb_neq in Hk.
        rewrite group_insert_other by congruence.
        rewrite app_nil_r. apply Hin.
    + intros p. rewrite group_insert_count, Hcount, filter_app, length_app.
      cbn [filter]. rewrite Hkr. cbn [notnull andb].
      destruct (p r); simpl; lia.
  - split; [exact Hs|]. split.
    + intros k rs. rewrite filter_app. cbn [filter]. rewrite Hkr. cbn [cell_is].
      rewrite app_nil_r. apply Hin.
    + intros p. rewrite Hcount, filter_app, length_app.
      cbn [filter]. rewrite Hkr. cbn [notnull andb]. simpl. lia.
Qed.

Lemma groups_of_fold (df pre : list A) (gs : dict (list A)) :
  groups_of key pre gs ->
  groups_of key (pre ++ df)
            (fold_left (fun gs r =>
                          match key r with
                          | Some k => group_insert k r gs
                          | None => gs
                          end) df gs).
Proof.
  revert pre gs. induction df as [|r df IH]; intros pre gs Hg; simpl.
  - now rewrite app_nil_r.
  - replace (pre ++ r :: df) with ((pre ++ [r]) ++ df)
      by (rewrite <- app_assoc; reflexivity).
    apply IH, groups_of_step, Hg.
Qed.

Lemma groupby_groups_of (df : list A) : groups_of key df (groupby key df).
Proof.
  apply (groups_of_fold df [] []). split; [constructor|]. split; [|reflexivity].
  intros k rs. simpl. split; [intros [] | intros [-> H]; now apply H].
Qed.

(** The keys of the grouping are the values of the key column. *)
Lemma groupby_keys (df : list A) (k : string) :
  In k (map fst (groupby key df)) <-> exists r, In r df /\ key r = Some k.
Proof.
  destruct (groupby_groups_of df) as [_ [Hin _]].
  rewrite in_map_iff. split.
  - intros [[k' rs] [Hk Hg]]. simpl in Hk. subst k'.
    apply Hin in Hg. destruct Hg as [-> Hne].
    destruct (filter _ df) as [|r rs] eqn:Hf; [contradiction|].
    assert (Hr : In r (filter (fun r => cell_is (key r) k) df))
      by (rewrite Hf; now left).
    apply filter_In in Hr. destruct Hr as [Hr Hc].
    apply cell_is_eq in Hc. now exists r.
  - intros [r [Hr Hc]].
    exists (k, filter (fun r => cell_is (key r) k) df).
    split; [reflexivity|]. apply Hin. split; [reflexivity|].
    intros Hnil.
    assert (Hin' : In r (filter (fun r => cell_is (key r) k) df))
      by (apply filter_In; split; [exact Hr | now apply cell_is_eq]).
    now rewrite Hnil in Hin'.
Qed.
End Groupby.

(** ** Breakdown engine *)

(** X1: whenever the chart data is computed (which it is for every frame with
    a dated row), the city breakdown has one row per delivery city that
    occurs in the frame, in strictly ascending order of the city name, and
    the value of a city is the mean delay over exactly the rows of that city;
    the cost/time table lists the same cities in the same order. *)
Theorem city_breakdown_rows (df : DataFrame) :
  ((exists r, In r df /\ date (event r) <> None) ->
   exists charts, prepare_chart_data df = Ok charts)
  /\ forall charts,
       prepare_chart_data df = Ok charts ->
       let table := delay_by_city charts in
       StronglySorted slt (map fst table)
       /\ NoDup (map fst table)
       /\ (forall c, In c (map fst table) <->
                     exists r, In r df /\ delivery_city r = Some c)
       /\ (forall c v,
             In (c, v) table ->
             v = series_mean
                   (map delay_minutes
                        (filter (fun r => cell_is (delivery_city r) c) df)))
       /\ map CostTime.delivery_city (cost_time_city charts) = map fst table.
Proof.
  split; [apply prepare_chart_data_returns|].
  intros charts Hok table. subst table.
  destruct (prepare_chart_data_Ok df charts Hok) as [bins [_ [-> [-> [_ _]]]]].
  destruct (groupby_groups_of delivery_city df) as [Hs [Hin _]].
  rewrite !map_map. cbn [fst CostTime.delivery_city].
  split; [exact Hs|]. split; [now apply StronglySorted_slt_NoDup|].
  split; [|split; [|reflexivity]].
  - intros c. apply groupby_keys.
  - intros c v Hcv. apply in_map_iff in Hcv. destruct Hcv as [[k rs] [Hkv Hg]].
    inversion Hkv; subst. apply Hin in Hg. destruct Hg as [-> _]. reflexivity.
Qed.

(** X2: whenever the chart data is computed, the vehicle distribution has one
    entry per vehicle_id that occurs in the frame (a row with a blank
    vehicle_id is in no entry), each holding the number of rows of that
    vehicle whose delivery_id is not blank; the counts add up to the number of
    rows that have both a vehicle_id and a delivery_id, which is the number of
    rows of the frame when no such cell is blank. *)
Theorem vehicle_distribution_counts (df : DataFrame) :
  forall charts,
    prepare_chart_data df = Ok charts ->
    let table := deliveries_per_vehicle_data charts in
    NoDup (map fst table)
    /\ (forall v, In v (map fst table) <->
                  exists r, In r df /\ vehicle_id (event r) = Some v)
    /\ (forall v n,
          In (v, n) table ->
          n = List.length
                (filter (fun r => notnull (delivery_id (event r)))
                        (filter (fun r => cell_is (vehicle_id (event r)) v) df)))
    /\ list_sum (map snd table)
       = List.length
           (filter (fun r => notnull (vehicle_id (event r))
                             && notnull (delivery_id (event r))) df)
    /\ (list_sum (map snd table) <= List.length df)%nat
    /\ ((forall r, In r df ->
                   vehicle_id (event r) <> None /\ delivery_id (event r) <> None) ->
        list_sum (map snd table) = List.length df).
Proof.
  intros charts Hok table. subst table.
  destruct (prepare_chart_data_Ok df charts Hok) as [bins [_ [_ [_ [-> _]]]]].
  destruct (groupby_groups_of (fun r => vehicle_id (event r)) df) as [Hs [Hin Hcount]].
  rewrite !map_map. cbn [fst snd].
  assert (Hsum : list_sum (map (fun g : string * DataFrame => count_ids (snd g))
                               (groupby (fun r => vehicle_id (event r)) df))
                 = List.length
                     (filter (fun r => notnull (vehicle_id (event r))
                                       && notnull (delivery_id (event r))) df))
    by apply (Hcount (fun r => notnull (delivery_id (event r)))).
  split; [now apply StronglySorted_slt_NoDup|].
  split; [intros v; apply groupby_keys|].
  split; [|split; [exact Hsum|split]].
  - intros v n Hvn. apply in_map_iff in Hvn. destruct Hvn as [[k rs] [Hkv Hg]].
    inversion Hkv; subst. apply Hin in Hg. destruct Hg as [-> Hne]. reflexivity.
  - rewrite Hsum. clear. induction df as [|r df IH]; simpl; [lia|].
    destruct (notnull (vehicle_id (event r)) && notnull (delivery_id (event r)));
      simpl; lia.
  - intros Hall. rewrite Hsum. f_equal.
    rewrite (filter_ext_in _ (fun _ => true)); [apply filter_true|].
    intros r Hr. destruct (Hall r Hr) as [Hv Hd].
    destruct (vehicle_id (event r)); [|contradiction].
    destruct (delivery_id (event r)); [reflexivity | contradiction].
Qed.

Lemma vehicle_distribution_counts_witness :
  exists charts,
    prepare_chart_data [row_jan31; row_blank_ids; row_feb01] = Ok charts
    /\ list_sum (map snd (deliveries_per_vehicle_data charts)) = 2%nat.
Proof.
  eexists. split; [reflexivity|].
  destruct (vehicle_distribution_counts [row_jan31; row_blank_ids; row_feb01]
              _ eq_refl) as [_ [_ [_ [Hsum _]]]].
  rewrite Hsum. reflexivity.
Defined.

(** ** KPI values *)

Lemma Qsum_of_nat {A : Type} (f : A -> nat) (l : list A) :
  (Qsum (map (fun a => inject_Z (Z.of_nat (f a))) l)
   == inject_Z (Z.of_nat (list_sum (map f l))))%Q.
Proof.
  induction l as [|a l IH]; simpl; [reflexivity|].
  change (Qsum (map (fun a0 : A => inject_Z (Z.of_nat (f a0))) l))
    with (Qsum (map (fun a0 : A => inject_Z (Z.of_nat (f a0))) l)) in IH.
  unfold Qsum in IH |- *. simpl. rewrite IH.
  rewrite Nat2Z.inj_add, inject_Z_plus. reflexivity.
Qed.

Lemma series_mean_Fin (qs : list Q) :
  qs <> [] ->
  series_mean (map Fin qs)
  = fdiv (total (map Fin qs)) (of_nat (List.length qs)).
Proof.
  intros Hne. unfold series_mean. rewrite dropna_Fin.
  destruct qs as [|q qs]; [contradiction|].
  cbn [map List.length]. now rewrite length_map.
Qed.

Lemma series_mean_counts {A : Type} (f : A -> nat) (l : list A) :
  l <> [] ->
  exists q,
    series_mean (map (fun a => of_nat (f a)) l) = Fin q
    /\ (q == inject_Z (Z.of_nat (list_sum (map f l)))
             / inject_Z (Z.of_nat (List.length l)))%Q.
Proof.
  intros Hne.
  change (map (fun a => of_nat (f a)) l)
    with (map (fun a => Fin (inject_Z (Z.of_nat (f a)))) l).
  rewrite <- (map_map (fun a => inject_Z (Z.of_nat (f a))) Fin).
  rewrite series_mean_Fin by (destruct l; [contradiction | discriminate]).
  destruct (fold_fadd_Fin (map (fun a => inject_Z (Z.of_nat (f a))) l) 0)
    as [q [Hq Heq]].
  unfold total, of_Z. rewrite Hq, length_map. unfold fdiv, of_nat, of_Z.
  assert (Hs : Qsgn (Z.of_nat (List.length l) # 1) = Gt).
  { unfold Qsgn. cbn [Qnum]. apply Z.compare_gt_iff.
    destruct l; [contradiction | simpl List.length; lia]. }
  rewrite Hs.
  eexists. split; [reflexivity|].
  rewrite Qred_correct, Heq, (Qsum_of_nat f l), Qplus_0_l. reflexivity.
Qed.

(** X3: the Deliveries per Vehicle KPI is the mean, over the distinct
    vehicle ids of the frame, of the number of rows of the vehicle that have a
    delivery_id.  When some row has a vehicle_id it is the finite number
    (rows with both a vehicle_id and a delivery_id) / (distinct vehicle ids),
    with at least one vehicle; when no row has one (the empty frame included)
    it is NaN.  The vehicle distribution of the chart data has one entry per
    counted vehicle. *)
Theorem deliveries_per_vehicle_value (df : DataFrame) :
  let vehicles := List.length (groupby (fun r => vehicle_id (event r)) df) in
  let counted :=
    List.length (filter (fun r => notnull (vehicle_id (event r))
                                  && notnull (delivery_id (event r))) df) in
  ((forall r, In r df -> vehicle_id (event r) = None) ->
   vehicles = 0%nat
   /\ getitem (calculate_kpis df) "Deliveries per Vehicle" = Ok NaN)
  /\ ((exists r, In r df /\ vehicle_id (event r) <> None) ->
      (1 <= vehicles)%nat
      /\ exists q,
           getitem (calculate_kpis df) "Deliveries per Vehicle" = Ok (Fin q)
           /\ (q == inject_Z (Z.of_nat counted) / inject_Z (Z.of_nat vehicles))%Q)
  /\ (forall charts,
        prepare_chart_data df = Ok charts ->
        List.length (deliveries_per_vehicle_data charts) = vehicles).
Proof.
  intros vehicles counted. subst vehicles counted.
  assert (Hkpi : getitem (calculate_kpis df) "Deliveries per Vehicle"
                 = Ok (series_mean
                         (map (fun g : string * DataFrame => of_nat (count_ids (snd g)))
                              (groupby (fun r => vehicle_id (event r)) df))))
    by reflexivity.
  destruct (groupby_groups_of (fun r => vehicle_id (event r)) df) as [_ [Hin Hcount]].
  split; [|split].
  - intros Hnone.
    assert (Hnil : groupby (fun r => vehicle_id (event r)) df = []).
    { destruct (groupby (fun r => vehicle_id (event r)) df) as [|[k rs] gs] eqn:Hg;
        [reflexivity|].
      assert (Hk : In k (map fst (groupby (fun r => vehicle_id (event r)) df)))
        by (rewrite Hg; now left).
      apply groupby_keys in Hk. destruct Hk as [r [Hr Hv]].
      rewrite (Hnone r Hr) in Hv. discriminate. }
    rewrite Hkpi, Hnil. split; reflexivity.
  - intros [r [Hr Hv]].
    assert (Hgs : groupby (fun r => vehicle_id (event r)) df <> []).
    { destruct (vehicle_id (event r)) as [v|] eqn:Hvr; [|contradiction].
      assert (Hk : In v (map fst (groupby (fun r => vehicle_id (event r)) df)))
        by (apply groupby_keys; now exists r).
      intros Hnil. now rewrite Hnil in Hk. }
    split.
    + destruct (groupby _ df); [contradiction | simpl; lia].
    + destruct (series_mean_counts (fun g : string * DataFrame => count_ids (snd g))
                                   _ Hgs) as [q [Hq Heq]].
      exists q. split; [now rewrite Hkpi, Hq|].
      rewrite Heq.
      assert (Hc := Hcount (fun r => notnull (delivery_id (event r)))).
      match goal with
      | |- (inject_Z (Z.of_nat ?a) / _ == _)%Q =>
          replace a with
            (List.length
               (filter (fun r => notnull (vehicle_id (event r))
                                 && notnull (delivery_id (event r))) df))
            by (symmetry; exact Hc)
      end.
      reflexivity.
  - intros charts Hok.
    destruct (prepare_chart_data_Ok df charts Hok) as [bins [_ [_ [_ [-> _]]]]].
    apply length_map.
Qed.

Lemma filter_length_le {A : Type} (f : A -> bool) (l : list A) :
  (List.length (filter f l) <= List.length l)%nat.
Proof.
  induction l as [|a l IH]; simpl; [lia|]. destruct (f a); simpl; lia.
Qed.

(** X4: for a nonempty frame, the On-Time Rate KPI is the finite number
    100 x (rows with on_time true) / (rows), and it lies between 0 and 100. *)
Theorem on_time_rate_bounds (df : DataFrame) (Hne : df <> []) :
  let punctual := List.length (filter (fun r => on_time (event r)) df) in
  exists q,
    getitem (calculate_kpis df) "On-Time Rate" = Ok (Fin q)
    /\ (q == inject_Z (100 * Z.of_nat punctual) / inject_Z (Z.of_nat (List.length df)))%Q
    /\ (0 <= q)%Q /\ (q <= 100)%Q.
Proof.
  intros punctual.
  assert (Hp : List.length (filter (fun b : bool => b) (map (fun r => on_time (event r)) df))
               = punctual).
  { subst punctual. rewrite filter_map_swap, length_map. reflexivity. }
  assert (Hle : (punctual <= List.length df)%nat) by apply filter_length_le.
  assert (Hpos : (0 < List.length df)%nat) by (destruct df; [contradiction | simpl; lia]).
  change (getitem (calculate_kpis df) "On-Time Rate")
    with (Ok (fmul (fdiv (bool_sum (map (fun r => on_time (event r)) df))
                         (of_nat (List.length df))) (of_Z 100))).
  unfold bool_sum. rewrite Hp. unfold of_nat, of_Z, fdiv.
  assert (Hs : Qsgn (Z.of_nat (List.length df) # 1) = Gt).
  { unfold Qsgn. cbn [Qnum]. apply Z.compare_gt_iff. lia. }
  rewrite Hs. unfold fmul.
  eexists. split; [reflexivity|].
  assert (Hn : (0 < inject_Z (Z.of_nat (List.length df)))%Q).
  { rewrite <- (Zlt_Qlt 0). lia. }
  assert (Hval : (Qred (Qred ((Z.of_nat punctual # 1) / (Z.of_nat (List.length df) # 1))
                        * (100 # 1))
                  == inject_Z (100 * Z.of_nat punctual)
                     / inject_Z (Z.of_nat (List.length df)))%Q).
  { rewrite !Qred_correct, inject_Z_mult.
    change (Z.of_nat punctual # 1) with (inject_Z (Z.of_nat punctual)).
    change (Z.of_nat (List.length df) # 1) with (inject_Z (Z.of_nat (List.length df))).
    change (100 # 1) with (inject_Z 100).
    field. intros H0. rewrite H0 in Hn. now apply Qlt_irrefl in Hn. }
  split; [exact Hval|]. rewrite Hval. split.
  - apply Qle_shift_div_l; [exact Hn|]. rewrite Qmult_0_l.
    rewrite <- (Zle_Qle 0). lia.
  - apply Qle_shift_div_r; [exact Hn|].
    change 100%Q with (inject_Z 100). rewrite <- inject_Z_mult, <- Zle_Qle. lia.
Qed.

Lemma on_time_rate_bounds_witness :
  exists q,
    getitem (calculate_kpis sample_frame) "On-Time Rate" = Ok (Fin q)
    /\ (q == 200 # 3)%Q.
Proof.
  assert (Hne : sample_frame <> []) by discriminate.
  destruct (on_time_rate_bounds sample_frame Hne) as [q [Hq [Heq _]]].
  exists q. split; [exact Hq|]. rewrite Heq. reflexivity.
Defined.

(** ** The join, without an assumption on the registry *)

Lemma merge_left_In (deliveries : list DeliveryEvent) (fleet : list VehicleRecord)
      (d : DeliveryEvent) (v : option VehicleRecord) :
  In (d, v) (merge_left deliveries fleet) <->
  In d deliveries
  /\ match v with
     | None => ~ In (vehicle_id d) (map fleet_vehicle_id fleet)
     | Some w => In w fleet /\ fleet_vehicle_id w = vehicle_id d
     end.
Proof.
  unfold merge_left. rewrite in_flat_map. split.
  - intros [d' [Hd' Hin]].
    destruct (filter (fun v0 => cell_eqb (fleet_vehicle_id v0) (vehicle_id d')) fleet)
      as [|w ws] eqn:Hf.
    + destruct Hin as [Heq|[]]. inversion Heq; subst. split; [exact Hd'|].
      intros Hk. apply in_map_iff in Hk. destruct Hk as [u [Hu Hin]].
      assert (Hu' : In u (filter (fun v0 => cell_eqb (fleet_vehicle_id v0)
                                                       (vehicle_id d)) fleet))
        by (apply filter_In; split; [exact Hin | now apply cell_eqb_eq]).
      now rewrite Hf in Hu'.
    + apply in_map_iff in Hin. destruct Hin as [u [Heq Hu]].
      inversion Heq; subst. split; [exact Hd'|].
      rewrite <- Hf in Hu. apply filter_In in Hu. destruct Hu as [Hu Hk].
      apply cell_eqb_eq in Hk. now split.
  - intros [Hd Hv]. exists d. split; [exact Hd|].
    destruct v as [w|].
    + destruct Hv as [Hw Hk].
      assert (Hw' : In w (filter (fun v0 => cell_eqb (fleet_vehicle_id v0)
                                                       (vehicle_id d)) fleet))
        by (apply filter_In; split; [exact Hw | now apply cell_eqb_eq]).
      destruct (filter _ fleet) as [|u us]; [destruct Hw'|].
      apply in_map_iff. now exists w.
    + destruct (filter (fun v0 => cell_eqb (fleet_vehicle_id v0) (vehicle_id d)) fleet)
        as [|u us] eqn:Hf; [now left|].
      exfalso. apply Hv.
      assert (Hu : In u (filter (fun v0 => cell_eqb (fleet_vehicle_id v0)
                                                      (vehicle_id d)) fleet))
        by (rewrite Hf; now left).
      apply filter_In in Hu. destruct Hu as [Hu Hk].
      apply cell_eqb_eq in Hk. rewrite <- Hk. now apply in_map.
Qed.

Lemma merge_left_length (deliveries : list DeliveryEvent) (fleet : list VehicleRecord) :
  (List.length deliveries <= List.length (merge_left deliveries fleet))%nat.
Proof.
  unfold merge_left. induction deliveries as [|d ds IH]; [simpl; lia|].
  cbn [flat_map]. rewrite length_app. cbn [List.length].
  set (rest := List.length (flat_map _ ds)) in *.
  destruct (filter (fun v => cell_eqb (fleet_vehicle_id v) (vehicle_id d)) fleet)
    as [|v vs]; cbn [List.length map]; lia.
Qed.


(** X5: whatever the registry holds (duplicated or blank cells included),
    when the loader returns it shows no error box, keeps every delivery event
    and invents none, so the frame has at least as many rows as the delivery
    table.  A row whose vehicle_id is not in the registry has no
    vehicle_home_city; a row that has a vehicle_home_city has the city of a
    registry row of its vehicle; and a row without one is either unmatched or
    matched with a registry row whose city cell is blank. *)
Theorem left_join_keeps_every_delivery
  (deliveries : list DeliveryEvent) (fleet : list VehicleRecord) (loaded : Loaded)
  (Hload : load_and_prepare_data
             {| deliveries_csv := Ok deliveries; fleet_csv := Ok fleet |}
           = Ok loaded) :
  shown loaded = []
  /\ (forall d, In d deliveries <-> exists r, In r (frame loaded) /\ event r = d)
  /\ (List.length deliveries <= List.length (frame loaded))%nat
  /\ (forall r, In r (frame loaded) ->
        (~ In (vehicle_id (event r)) (map fleet_vehicle_id fleet) ->
         vehicle_home_city r = None)
        /\ (forall c, vehicle_home_city r = Some c ->
              exists v, In v fleet
                        /\ fleet_vehicle_id v = vehicle_id (event r)
                        /\ fleet_city v = Some c)
        /\ (vehicle_home_city r = None ->
            ~ In (vehicle_id (event r)) (map fleet_vehicle_id fleet)
            \/ exists v, In v fleet
                         /\ fleet_vehicle_id v = vehicle_id (event r)
                         /\ fleet_city v = None)).
Proof.
  cbn in Hload. injection Hload as <-. cbn [shown frame].
  split; [reflexivity|]. split; [|split].
  - intros d. split.
    + intros Hd.
      destruct (filter (fun v0 => cell_eqb (fleet_vehicle_id v0) (vehicle_id d)) fleet)
        as [|w ws] eqn:Hf.
      * exists (derive (d, None)). split; [|reflexivity].
        apply in_map, merge_left_In. split; [exact Hd|].
        intros Hk. apply in_map_iff in Hk. destruct Hk as [u [Hu Hin]].
        assert (Hu' : In u (filter (fun v0 => cell_eqb (fleet_vehicle_id v0)
                                                       (vehicle_id d)) fleet))
          by (apply filter_In; split; [exact Hin | now apply cell_eqb_eq]).
        now rewrite Hf in Hu'.
      * exists (derive (d, Some w)). split; [|reflexivity].
        apply in_map, merge_left_In. split; [exact Hd|].
        assert (Hw : In w (filter (fun v0 => cell_eqb (fleet_vehicle_id v0)
                                                      (vehicle_id d)) fleet))
          by (rewrite Hf; now left).
        apply filter_In in Hw. destruct Hw as [Hw Hk].
        apply cell_eqb_eq in Hk. now split.
    + intros [r [Hr <-]]. apply in_map_iff in Hr. destruct Hr as [[d v] [<- Hin]].
      apply merge_left_In in Hin. now destruct Hin.
  - rewrite length_map. apply merge_left_length.
  - intros r Hr. apply in_map_iff in Hr. destruct Hr as [[d v] [<- Hin]].
    apply merge_left_In in Hin. destruct Hin as [_ Hv]. cbn [derive event vehicle_home_city].
    destruct v as [w|].
    + destruct Hv as [Hw Hk]. split; [|split].
      * intros Hno. exfalso. apply Hno. rewrite <- Hk. now apply in_map.
      * intros c Hc. now exists w.
      * intros Hc. right. now exists w.
    + split; [|split]; [reflexivity | discriminate | now left].
Qed.

Lemma left_join_keeps_every_delivery_witness :
  exists loaded,
    load_and_prepare_data sample_sources = Ok loaded
    /\ (List.length [delivery_jan31; delivery_feb01; delivery_apr01]
        <= List.length (frame loaded))%nat.
Proof.
  eexists. split; [reflexivity|].
  exact (proj1 (proj2 (proj2 (left_join_keeps_every_delivery
                                [delivery_jan31; delivery_feb01; delivery_apr01]
                                sample_fleet _ eq_refl)))).
Defined.

(** ** Filter stage, row by row *)

Lemma filter_idem {A : Type} (f : A -> bool) (l : list A) :
  filter f (filter f l) = filter f l.
Proof.
  induction l as [|a l IH]; simpl; [reflexivity|].
  destruct (f a) eqn:Hf; simpl; rewrite ?Hf, IH; reflexivity.
Qed.

Lemma apply_filters_In (sel : Selection) (df : DataFrame) (r : EnrichedRecord) :
  In r (apply_filters sel df) <->
  In r df
  /\ (selected_city sel = "All"%string \/ delivery_city r = Some (selected_city sel))
  /\ (selected_month sel = "All"%string \/ month_name r = Some (selected_month sel)).
Proof.
  unfold apply_filters, filter_month, filter_city.
  destruct (String.eqb_spec (selected_city sel) "All") as [Hc|Hc];
    destruct (String.eqb_spec (selected_month sel) "All") as [Hm|Hm];
    cbn [negb]; rewrite ?filter_In, ?cell_is_eq; tauto.
Qed.

(** X6: a row is in the filtered frame exactly when it is in the frame and
    its city is the selected city (or the city selection is "All") and its
    month label is the selected month (or the month selection is "All"); a
    row with a blank cell in a filtered column is never kept; filtering never
    adds rows, and filtering twice with one selection changes nothing. *)
Theorem apply_filters_selects (sel : Selection) (df : DataFrame) :
  (forall r,
     In r (apply_filters sel df) <->
     In r df
     /\ (selected_city sel = "All"%string
         \/ delivery_city r = Some (selected_city sel))
     /\ (selected_month sel = "All"%string
         \/ month_name r = Some (selected_month sel)))
  /\ (List.length (apply_filters sel df) <= List.length df)%nat
  /\ apply_filters sel (apply_filters sel df) = apply_filters sel df.
Proof.
  unfold apply_filters, filter_month, filter_city.
  destruct (String.eqb_spec (selected_city sel) "All") as [Hc|Hc];
    destruct (String.eqb_spec (selected_month sel) "All") as [Hm|Hm];
    cbn [negb]; (split; [|split]).
  - intros r. tauto.
  - lia.
  - reflexivity.
  - intros r. rewrite filter_In, cell_is_eq. tauto.
  - apply filter_length_le.
  - apply filter_idem.
  - intros r. rewrite filter_In, cell_is_eq. tauto.
  - apply filter_length_le.
  - apply filter_idem.
  - intros r. rewrite !filter_In, !cell_is_eq. tauto.
  - etransitivity; [apply filter_length_le | apply filter_length_le].
  - rewrite (filter_swap (fun r => cell_is (delivery_city r) (selected_city sel))
                         (fun r => cell_is (month_name r) (selected_month sel))
                         (filter _ df)).
    now rewrite !filter_idem.
Qed.

(** ** Month labels *)

Lemma year_string_inj (y1 y2 : Z) :
  NilZero.string_of_int (Z.to_int y1) = NilZero.string_of_int (Z.to_int y2) ->
  y1 = y2.
Proof.
  intros H. apply DecimalZ.to_int_inj.
  assert (Hnn : forall y, Z.to_int y <> Decimal.Pos Decimal.Nil
                          /\ Z.to_int y <> Decimal.Neg Decimal.Nil).
  { intros [|p|p]; split; simpl; try discriminate;
      intros E; injection E as E; now apply Unsigned.to_uint_nonnil in E. }
  destruct (Hnn y1) as [Hp1 Hn1], (Hnn y2) as [Hp2 Hn2].
  pose proof (NilZero.isi _ Hp1 Hn1) as H1.
  pose proof (NilZero.isi _ Hp2 Hn2) as H2.
  rewrite H in H1. rewrite H1 in H2. now injection H2.
Qed.

Lemma strftime_bY_inj (d1 d2 : Date) :
  strftime_bY d1 = strftime_bY d2 <-> year d1 = year d2 /\ month d1 = month d2.
Proof.
  unfold strftime_bY. split.
  - intros H.
    destruct (month d1), (month d2); cbn [month_abbr append] in H;
      try discriminate H; injection H as H; apply year_string_inj in H;
      (split; [exact H | reflexivity]).
  - intros [-> ->]. reflexivity.
Qed.

Lemma month_index_inj (d1 d2 : Date) :
  month_index d1 = month_index d2 <-> year d1 = year d2 /\ month d1 = month d2.
Proof.
  unfold month_index. split.
  - intros H.
    pose proof (month_ord_range (month d1)). pose proof (month_ord_range (month d2)).
    assert (Hy : year d1 = year d2) by lia.
    split; [exact Hy|].
    assert (Hm : month_ord (month d1) = month_ord (month d2)) by lia.
    destruct (month d1), (month d2); simpl in Hm; congruence.
  - intros [-> ->]. reflexivity.
Qed.

Lemma label_month (d1 d2 : option Date) :
  option_map strftime_bY d1 = option_map strftime_bY d2 <->
  option_map month_index d1 = option_map month_index d2.
Proof.
  destruct d1 as [d1|], d2 as [d2|]; cbn [option_map];
    try (split; discriminate); [|tauto].
  split; intros H; injection H as H; f_equal.
  - now apply month_index_inj, strftime_bY_inj.
  - now apply strftime_bY_inj, month_index_inj.
Qed.

Lemma loaded_frame_labelled (src : Sources) (loaded : Loaded) :
  load_and_prepare_data src = Ok loaded -> labelled (frame loaded).
Proof.
  unfold load_and_prepare_data.
  destruct (read_sources src) as [[ds fl]|e].
  - intros H. injection H as <-. cbn [frame]. intros r Hr.
    apply in_map_iff in Hr. destruct Hr as [[d v] [<- _]]. reflexivity.
  - destruct e; try discriminate. intros H. injection H as <-. intros r [].
Qed.

Lemma label_not_All (d : Date) : strftime_bY d <> "All"%string.
Proof. unfold strftime_bY. destruct (month d); discriminate. Qed.

(** X7: in a frame returned by the loader, two rows have the same month_name
    exactly when their dates are in the same calendar month of the same year
    (or both have no date); so the month filter, which compares labels,
    selects the rows of one calendar month. *)
Theorem month_label_is_calendar_month
  (src : Sources) (loaded : Loaded) (r1 r2 : EnrichedRecord)
  (Hload : load_and_prepare_data src = Ok loaded)
  (Hin1 : In r1 (frame loaded)) (Hin2 : In r2 (frame loaded)) :
  (month_name r1 = month_name r2 <->
   option_map month_index (date (event r1))
   = option_map month_index (date (event r2)))
  /\ (forall label,
        month_name r1 = Some label ->
        In r2 (filter_month label (frame loaded)) ->
        option_map month_index (date (event r2))
        = option_map month_index (date (event r1))).
Proof.
  pose proof (loaded_frame_labelled src loaded Hload) as Hlab.
  assert (Hiff : month_name r1 = month_name r2 <->
                 option_map month_index (date (event r1))
                 = option_map month_index (date (event r2))).
  { rewrite (Hlab r1 Hin1), (Hlab r2 Hin2). apply label_month. }
  split; [exact Hiff|].
  intros label Hl. unfold filter_month.
  destruct (String.eqb_spec label "All") as [HAll|_]; cbn [negb].
  - (* no label written by the loader is "All" *)
    exfalso. rewrite (Hlab r1 Hin1) in Hl.
    destruct (date (event r1)) as [d|]; [|discriminate].
    injection Hl as Hl. subst label. now apply (label_not_All d).
  - intros H. apply filter_In in H. destruct H as [_ H].
    apply cell_is_eq in H. symmetry. apply Hiff. now rewrite Hl, H.
Qed.

Lemma month_label_is_calendar_month_witness :
  month_name row_jan31 = month_name row_feb01 <->
  option_map month_index (date (event row_jan31))
  = option_map month_index (date (event row_feb01)).
Proof.
  exact (proj1 (month_label_is_calendar_month
                  sample_sources {| shown := []; frame := sample_frame |}
                  row_jan31 row_feb01 eq_refl
                  (or_introl eq_refl) (or_intror (or_introl eq_refl)))).
Defined.

(** ** Deltas under a month selection *)

Lemma single_month_summary (df : DataFrame) (summary : list Summary.row) :
  (forall r1 r2, In r1 df -> In r2 df ->
                 option_map month_index (date (event r1))
                 = option_map month_index (date (event r2))) ->
  monthly_summary df = Ok summary ->
  exists row, summary = [row].
Proof.
  intros Hsame Hok.
  destruct (monthly_summary_Ok df summary Hok)
    as [lo [hi [[_ [[rl [Hrl Hlo]] [rh [Hrh Hhi]]]] ->]]].
  unfold month_of in Hlo, Hhi.
  specialize (Hsame rl rh Hrl Hrh). rewrite Hlo, Hhi in Hsame.
  injection Hsame as <-.
  replace (lo - lo + 1) with 1 by lia.
  eexists. reflexivity.
Qed.

Lemma short_summary_zero (s : list Summary.row) :
  (List.length s < 2)%nat -> mom_values_of s = Ok zero_mom_values.
Proof.
  intros Hlen. rewrite mom_values_of_defined. unfold delta_percent.
  replace (2 <=? List.length s)%nat with false
    by (symmetry; apply Nat.leb_gt; exact Hlen).
  reflexivity.
Qed.

Lemma zero_cards (df : DataFrame) :
  kpi_cards (calculate_kpis df) zero_mom_values
  = Ok (map (fun kv => {| card_name := fst kv; card_value := snd kv;
                          card_mom := of_Z 0 |})
            (calculate_kpis df)).
Proof. reflexivity. Qed.

(** X8: when a month is selected (anything but "All"), the filtered frame of a
    loaded table lies in one calendar month.  If it has a row, its monthly
    summary is computed and has exactly one row, and every month-over-month
    delta is 0; if it has no row the resample chain raises ValueError.  So
    whenever [main] returns a page with tiles under a month selection, every
    tile shows the delta 0. *)
Theorem month_selection_zero_deltas
  (src : Sources) (sel : Selection) (loaded : Loaded)
  (Hload : load_and_prepare_data src = Ok loaded)
  (Hmonth : selected_month sel <> "All"%string) :
  let df := apply_filters sel (frame loaded) in
  (df = [] -> monthly_summary df = Raise ValueError)
  /\ (df <> [] ->
      exists row,
        monthly_summary df = Ok [row]
        /\ mom_values_of [row] = Ok zero_mom_values)
  /\ forall page bundle,
       main src sel = Ok page -> body page = Some bundle ->
       Forall (fun card => card_mom card = of_Z 0) (cards bundle).
Proof.
  intros df.
  pose proof (loaded_frame_labelled src loaded Hload) as Hlab.
  assert (Hrow : forall r, In r df ->
                           option_map strftime_bY (date (event r))
                           = Some (selected_month sel)).
  { intros r Hr. apply apply_filters_In in Hr.
    destruct Hr as [Hin [_ [Hm|Hm]]]; [contradiction|].
    now rewrite <- (Hlab r Hin). }
  assert (Hsame : forall r1 r2, In r1 df -> In r2 df ->
                                option_map month_index (date (event r1))
                                = option_map month_index (date (event r2))).
  { intros r1 r2 Hr1 Hr2. apply label_month.
    now rewrite (Hrow r1 Hr1), (Hrow r2 Hr2). }
  assert (Hone : forall summary,
             monthly_summary df = Ok summary ->
             mom_values_of summary = Ok zero_mom_values).
  { intros summary Hok.
    destruct (single_month_summary df summary Hsame Hok) as [row ->].
    apply short_summary_zero. simpl. lia. }
  split; [|split].
  - intros ->. reflexivity.
  - intros Hne. destruct df as [|r rest] eqn:Hdf; [contradiction|].
    assert (Hd : date (event r) <> None).
    { intros Hnone. specialize (Hrow r (or_introl eq_refl)).
      rewrite Hnone in Hrow. discriminate. }
    destruct (monthly_summary_returns (r :: rest)) as [summary Hok];
      [exists r; split; [now left | exact Hd]|].
    destruct (single_month_summary _ summary Hsame Hok) as [row ->].
    exists row. split; [exact Hok | now apply Hone].
  - intros page bundle Hmain Hbody. unfold main in Hmain. rewrite Hload in Hmain.
    cbn [bind] in Hmain.
    destruct (df_empty (frame loaded)).
    + injection Hmain as <-. discriminate Hbody.
    + destruct (py_sorted (unique (map delivery_city (frame loaded))))
        as [cities|e]; cbn [bind] in Hmain; [|discriminate].
      destruct (py_sorted (unique (map month_name (frame loaded))))
        as [months|e]; cbn [bind] in Hmain; [|discriminate].
      fold df in Hmain.
      destruct (monthly_summary df) as [summary|e] eqn:Hsum;
        cbn [bind] in Hmain; [|discriminate].
      rewrite (Hone summary eq_refl) in Hmain. cbn [bind] in Hmain.
      rewrite zero_cards in Hmain. cbn [bind] in Hmain.
      destruct (prepare_chart_data df) as [charts|e];
        cbn [bind] in Hmain; [|discriminate].
      injection Hmain as <-. cbn [body] in Hbody. injection Hbody as <-.
      cbn [cards]. repeat constructor.
Qed.

Lemma month_selection_zero_deltas_witness :
  exists row,
    monthly_summary (apply_filters select_jan sample_frame) = Ok [row]
    /\ mom_values_of [row] = Ok zero_mom_values.
Proof.
  assert (Hmonth : selected_month select_jan <> "All"%string) by discriminate.
  assert (Hne : apply_filters select_jan sample_frame <> []) by discriminate.
  exact (proj1 (proj2 (month_selection_zero_deltas
                         sample_sources select_jan
                         {| shown := []; frame := sample_frame |}
                         eq_refl Hmonth)) Hne).
Defined.

(** ** The loader's cache slot *)

Lemma main_cached_uses_slot (src src' : Sources) (sel : Selection) (c : Cache)
      (loaded : Loaded) :
  load_memo c = Some loaded -> main_cached src' sel c = main_cached src sel c.
Proof.
  intros H. unfold main_cached, run_bind, cached_load_and_prepare_data.
  now rewrite H.
Qed.

Lemma load_memo_after_run (src : Sources) (sel : Selection) (c : Cache)
      (loaded : Loaded) :
  coherent src c ->
  load_and_prepare_data src = Ok loaded ->
  load_memo (snd (main_cached src sel c)) = Some loaded.
Proof.
  intros [Hslot _] Hload.
  unfold main_cached, run_bind, cached_load_and_prepare_data.
  assert (Hfirst : exists c1,
             match load_memo c with
             | Some l => (Ok l, c)
             | None =>
                 match load_and_prepare_data src with
                 | Ok l => (Ok l, {| load_memo := Some l; kpi_memo := kpi_memo c;
                                     chart_memo := chart_memo c |})
                 | Raise e => (Raise e, c)
                 end
             end = (Ok loaded, c1) /\ load_memo c1 = Some loaded).
  { destruct (load_memo c) as [l|] eqn:Hl.
    - exists c. pose proof (Hslot l eq_refl) as Hl'. rewrite Hload in Hl'.
      injection Hl' as <-. split; [reflexivity | exact Hl].
    - rewrite Hload. eexists. split; reflexivity. }
  destruct Hfirst as [c1 [-> Hc1]].
  destruct (df_empty (frame loaded)); [exact Hc1|].
  unfold cached_calculate_kpis, cached_prepare_chart_data, run_lift, run_ret.
  destruct (py_sorted (unique (map delivery_city (frame loaded))))
    as [cities|e]; [|exact Hc1].
  destruct (py_sorted (unique (map month_name (frame loaded))))
    as [months|e]; [|exact Hc1].
  destruct (cache_data DataFrame_eq_dec (fun d => Ok (calculate_kpis d)) _
                       (kpi_memo c1)) as [[v|e] m]; [|exact Hc1].
  destruct (monthly_summary _) as [summary|e]; [|exact Hc1].
  destruct (mom_values_of _) as [mv|e]; [|exact Hc1].
  destruct (kpi_cards v mv) as [cs|e]; [|exact Hc1].
  cbn [chart_memo].
  destruct (cache_data DataFrame_eq_dec prepare_chart_data _ (chart_memo c1))
    as [[v'|e] m']; exact Hc1.
Qed.

(** X9: the loader has one cache slot for the whole process.  Once a run has
    loaded a frame (also the empty frame of the missing-files case), every
    later run shows the page of that frame, whatever the two files hold by
    then; a run whose loader raised stores nothing, and the next run reads
    the files again. *)
Theorem loader_result_is_sticky
  (src src' : Sources) (sel sel' : Selection) (c : Cache)
  (Hc : coherent src c) :
  (forall loaded,
     load_and_prepare_data src = Ok loaded ->
     fst (main_cached src' sel' (snd (main_cached src sel c))) = main src sel')
  /\ (forall e,
        load_and_prepare_data src = Raise e -> load_memo c = None ->
        fst (main_cached src' sel' (snd (main_cached src sel c))) = main src' sel').
Proof.
  split.
  - intros loaded Hload.
    pose proof (load_memo_after_run src sel c loaded Hc Hload) as Hslot.
    rewrite (main_cached_uses_slot src src' sel' _ loaded Hslot).
    destruct (main_cached_main src sel c Hc) as [_ Hc1].
    now destruct (main_cached_main src sel' _ Hc1).
  - intros e Hraise Hnone.
    assert (Hrun : main_cached src sel c = (Raise e, c)).
    { unfold main_cached, run_bind, cached_load_and_prepare_data.
      now rewrite Hnone, Hraise. }
    rewrite Hrun. cbn [snd].
    assert (Hc' : coherent src' c).
    { destruct Hc as [_ [Hk Hch]]. split; [|split; assumption].
      intros l Hl. rewrite Hnone in Hl. discriminate. }
    now destruct (main_cached_main src' sel' c Hc').
Qed.

Lemma loader_result_is_sticky_witness :
  fst (main_cached sample_sources select_all
         (snd (main_cached missing_sources select_all empty_cache)))
  = Ok {| errors := [missing_files_message]; body := None |}.
Proof.
  exact (proj1 (loader_result_is_sticky
                  missing_sources sample_sources select_all select_all empty_cache
                  (empty_cache_coherent missing_sources))
               {| shown := [missing_files_message]; frame := [] |} eq_refl).
Defined.

(** ** Tile trend *)

(** X10: on every KPI tile the colour is green exactly when the arrow points
    up; for the three lower-is-better KPIs that is when the delta is
    negative, for the other names when it is positive; a delta that is
    neither (zero, or NaN) gives a red down arrow on every tile. *)
Theorem tile_trend_signs (name : string) (mom : num) :
  let arrow := fst (tile_trend name mom) in
  let color := snd (tile_trend name mom) in
  (arrow = "▲"%string <-> color = "green"%string)
  /\ (arrow = "▼"%string <-> color = "red"%string)
  /\ (arrow = "▲"%string \/ arrow = "▼"%string)
  /\ (In name lower_is_better -> (arrow = "▲"%string <-> lt0 mom = true))
  /\ (~ In name lower_is_better -> (arrow = "▲"%string <-> gt0 mom = true))
  /\ (lt0 mom = false -> gt0 mom = false ->
      tile_trend name mom = ("▼", "red")%string)
  /\ tile_trend name (of_Z 0) = ("▼", "red")%string
  /\ tile_trend name NaN = ("▼", "red")%string.
Proof.
  intros arrow color. subst arrow color. unfold tile_trend.
  destruct (existsb (String.eqb name) lower_is_better) eqn:Hl.
  - assert (Hin : In name lower_is_better).
    { apply existsb_exists in Hl. destruct Hl as [x [Hx Hn]].
      apply String.eqb_eq in Hn. now subst. }
    destruct (lt0 mom) eqn:Hlt; cbn [fst snd];
      repeat split; try tauto; try discriminate; try (intros; congruence);
      try (now left); try (now right).
  - assert (Hnot : ~ In name lower_is_better).
    { intros Hin.
      assert (Ht : existsb (String.eqb name) lower_is_better = true)
        by (apply existsb_exists; exists name; split;
            [exact Hin | apply String.eqb_refl]).
      congruence. }
    destruct (gt0 mom) eqn:Hgt; cbn [fst snd];
      repeat split; try tauto; try discriminate; try (intros; congruence);
      try (now left); try (now right).
Qed.

(** ** Sidebar options *)

Lemma unique_In (xs : list cell) (x : cell) : In x (unique xs) <-> In x xs.
Proof.
  induction xs as [|y xs IH]; simpl; [reflexivity|].
  rewrite filter_In, IH, negb_true_iff.
  destruct (cell_eq_dec y x) as [->|Hne]; [tauto|].
  split; [tauto|]. intros [H|H]; [contradiction|]. right. split; [exact H|].
  destruct (cell_eqb x y) eqn:E; [|reflexivity].
  apply cell_eqb_eq in E. congruence.
Qed.

Lemma NoDup_filter {A : Type} (f : A -> bool) (l : list A) :
  NoDup l -> NoDup (filter f l).
Proof.
  induction 1 as [|a l Hnot Hnd IH]; simpl; [constructor|].
  destruct (f a); [|exact IH].
  constructor; [|exact IH]. intros H. apply filter_In in H. tauto.
Qed.

Lemma unique_NoDup (xs : list cell) : NoDup (unique xs).
Proof.
  induction xs as [|y xs IH]; simpl; constructor.
  - intros H. apply filter_In in H. destruct H as [_ H].
    assert (E : cell_eqb y y = true) by now apply cell_eqb_eq.
    rewrite E in H. discriminate.
  - now apply NoDup_filter.
Qed.

Lemma insert_sorted_In (x : string) (l : list string) (y : string) :
  In y (insert_sorted x l) <-> y = x \/ In y l.
Proof.
  induction l as [|z l IH]; simpl; [intuition|].
  destruct (String.leb x z); simpl; [intuition|]. rewrite IH. intuition.
Qed.

Lemma sorted_In (l : list string) (y : string) : In y (sorted l) <-> In y l.
Proof.
  unfold sorted. induction l as [|x l IH]; simpl; [reflexivity|].
  rewrite insert_sorted_In, IH. intuition.
Qed.

Lemma insert_sorted_NoDup (x : string) (l : list string) :
  ~ In x l -> NoDup l -> NoDup (insert_sorted x l).
Proof.
  induction l as [|z l IH]; simpl; intros Hx Hnd.
  - constructor; [tauto | constructor].
  - destruct (String.leb x z).
    + constructor; [simpl; tauto | exact Hnd].
    + inversion Hnd as [|? ? Hz Hnd']; subst. constructor.
      * rewrite insert_sorted_In. intros [->|H]; tauto.
      * apply IH; tauto.
Qed.

Lemma sorted_NoDup (l : list string) : NoDup l -> NoDup (sorted l).
Proof.
  unfold sorted. induction 1 as [|x l Hx Hnd IH]; simpl; [constructor|].
  apply insert_sorted_NoDup; [|exact IH].
  intros H. apply Hx. now apply (sorted_In l x).
Qed.

Lemma leb_false_leb (x z : string) : String.leb x z = false -> String.leb z x = true.
Proof.
  intros H. destruct (String.leb_total x z) as [H'|H']; [congruence | exact H'].
Qed.

Lemma insert_sorted_Sorted (x : string) (l : list string) :
  Sorted (fun a b => String.leb a b = true) l ->
  Sorted (fun a b => String.leb a b = true) (insert_sorted x l).
Proof.
  induction l as [|z l IH]; simpl; intros Hs.
  - repeat constructor.
  - destruct (String.leb x z) eqn:Hxz.
    + constructor; [exact Hs | constructor; exact Hxz].
    + apply Sorted_inv in Hs. destruct Hs as [Hs Hhd].
      constructor; [now apply IH|].
      destruct l as [|w l]; simpl.
      * constructor. now apply leb_false_leb.
      * destruct (String.leb x w).
        -- constructor. now apply leb_false_leb.
        -- constructor. now inversion Hhd.
Qed.

Lemma sorted_Sorted (l : list string) :
  Sorted (fun a b => String.leb a b = true) (sorted l).
Proof.
  unfold sorted. induction l as [|x l IH]; simpl; [constructor|].
  now apply insert_sorted_Sorted.
Qed.


Lemma all_text_Some (l : list cell) (texts : list string) :
  all_text l = Some texts <-> l = map Some texts.
Proof.
  revert texts. induction l as [|[x|] l IH]; intros texts; simpl.
  - split; [intros H; injection H as <-; reflexivity|].
    destruct texts; [reflexivity | discriminate].
  - destruct (all_text l) as [ts|] eqn:Hl; cbn [option_map].
    + split.
      * intros H. injection H as <-. simpl. f_equal. now apply IH.
      * destruct texts as [|t texts]; [discriminate|]. simpl. intros H.
        injection H as -> H. apply IH in H. now injection H as ->.
    + split; [discriminate|].
      destruct texts as [|t texts]; [discriminate|]. simpl. intros H.
      injection H as -> H. apply IH in H. discriminate.
  - split; [discriminate|]. destruct texts; discriminate.
Qed.

Lemma all_text_None (l : list cell) : all_text l = None <-> In None l.
Proof.
  induction l as [|[x|] l IH]; simpl.
  - split; [discriminate | intros []].
  - destruct (all_text l) as [ts|]; cbn [option_map].
    + split; [discriminate|]. intros [H|H]; [discriminate|].
      apply IH in H. discriminate.
    + split; [|reflexivity]. intros _. right. now apply IH.
  - split; [|reflexivity]. intros _. now left.
Qed.

Lemma unique_all_missing (l : list cell) :
  l <> [] -> (forall c, In c l -> c = None) -> unique l = [None].
Proof.
  induction l as [|c l IH]; [contradiction|]. intros _ Hall.
  rewrite (Hall c (or_introl eq_refl)). cbn [unique].
  destruct l as [|c' l]; [reflexivity|].
  rewrite IH; [reflexivity | discriminate |].
  intros x Hx. apply Hall. now right.
Qed.

Lemma py_sorted_mixed (l : list cell) :
  In None l -> (exists c, In (Some c) l) -> py_sorted (unique l) = Raise TypeError.
Proof.
  intros Hnone [c Hsome]. unfold py_sorted.
  apply unique_In in Hnone. apply unique_In in Hsome.
  apply all_text_None in Hnone. rewrite Hnone.
  destruct (forallb (fun c => negb (notnull c)) (unique l)) eqn:Hf; [|reflexivity].
  rewrite forallb_forall in Hf. specialize (Hf _ Hsome). discriminate.
Qed.

(** X11: the options of a sidebar radio, for either filtered column [col]
    (the delivery city, the month label).  If the column has a blank cell and
    a text cell, sorting its distinct values raises TypeError and no option
    is offered.  If it has no blank cell, the values offered after "All" are
    the texts of the column, each once, in ascending order, and every one of
    them, selected alone, keeps at least one row.  If the frame is not empty
    and every cell of the column is blank, the only value is the blank one. *)
Theorem sidebar_options (col : EnrichedRecord -> cell) (df : DataFrame) :
  let outcome := py_sorted (unique (map col df)) in
  ((exists r1 r2, In r1 df /\ In r2 df /\ col r1 = None /\ col r2 <> None) ->
   outcome = Raise TypeError)
  /\ ((forall r, In r df -> col r <> None) ->
      exists texts,
        outcome = Ok (map Some texts)
        /\ radio_options (map Some texts) = Some "All"%string :: map Some texts
        /\ NoDup texts
        /\ Sorted (fun a b => String.leb a b = true) texts
        /\ (forall c, In c texts <-> exists r, In r df /\ col r = Some c)
        /\ (forall c, In c texts ->
                      filter (fun r => cell_is (col r) c) df <> []))
  /\ (df <> [] -> (forall r, In r df -> col r = None) ->
      outcome = Ok [None]
      /\ radio_options [None] = [Some "All"%string; None]).
Proof.
  intros outcome. subst outcome. split; [|split].
  - intros [r1 [r2 [H1 [H2 [Hn Hs]]]]]. apply py_sorted_mixed.
    + apply in_map_iff. now exists r1.
    + destruct (col r2) as [c|] eqn:Hc; [|contradiction].
      exists c. apply in_map_iff. now exists r2.
  - intros Hall. unfold py_sorted.
    destruct (all_text (unique (map col df))) as [texts|] eqn:Ht.
    + apply all_text_Some in Ht.
      assert (Hmem : forall c, In c (sorted texts) <->
                               exists r, In r df /\ col r = Some c).
      { intros c. rewrite sorted_In. split.
        - intros Hc.
          assert (H : In (Some c) (unique (map col df)))
            by (rewrite Ht; now apply in_map).
          apply unique_In, in_map_iff in H. destruct H as [r [Hc' Hr]].
          now exists r.
        - intros [r [Hr Hc]].
          assert (H : In (Some c) (unique (map col df)))
            by (apply unique_In, in_map_iff; now exists r).
          rewrite Ht in H. apply in_map_iff in H. destruct H as [x [Hx Hin]].
          now injection Hx as ->. }
      exists (sorted texts). split; [reflexivity|]. split; [reflexivity|].
      split; [|split; [apply sorted_Sorted|split; [exact Hmem|]]].
      * apply sorted_NoDup.
        apply (NoDup_map_inv Some). rewrite <- Ht. apply unique_NoDup.
      * intros c Hc. apply Hmem in Hc. destruct Hc as [r [Hr Hc]].
        intros Hnil.
        assert (Hin : In r (filter (fun r => cell_is (col r) c) df))
          by (apply filter_In; split; [exact Hr | now apply cell_is_eq]).
        now rewrite Hnil in Hin.
    + apply all_text_None, unique_In, in_map_iff in Ht.
      destruct Ht as [r [Hc Hr]]. now destruct (Hall r Hr).
  - intros Hne Hall. split; [|reflexivity].
    rewrite unique_all_missing; [reflexivity | |].
    + destruct df; [contradiction | discriminate].
    + intros c Hc. apply in_map_iff in Hc. destruct Hc as [r [<- Hr]].
      now apply Hall.
Qed.

(** X15: a blank cell in a filtered column stops the page.  When the loaded
    frame has a row with a blank delivery city beside a row with a city, or
    has a city in every row and a row without a date beside a dated one,
    [main] raises TypeError while building the sidebar, whatever is selected:
    no KPI, summary or chart is computed. *)
Theorem blank_cell_stops_main
  (src : Sources) (sel : Selection) (loaded : Loaded)
  (Hload : load_and_prepare_data src = Ok loaded)
  (Hblank :
     (exists r1 r2, In r1 (frame loaded) /\ In r2 (frame loaded)
                    /\ delivery_city r1 = None /\ delivery_city r2 <> None)
     \/ ((forall r, In r (frame loaded) -> delivery_city r <> None)
         /\ exists r1 r2, In r1 (frame loaded) /\ In r2 (frame loaded)
                          /\ date (event r1) = None
                          /\ date (event r2) <> None)) :
  main src sel = Raise TypeError.
Proof.
  pose proof (loaded_frame_labelled src loaded Hload) as Hlab.
  unfold main. rewrite Hload. cbn [bind].
  assert (Hne : df_empty (frame loaded) = false).
  { destruct Hblank as [[r1 [_ [H1 _]]]|[_ [r1 [_ [H1 _]]]]];
      destruct (frame loaded); [destruct H1 | reflexivity
                               | destruct H1 | reflexivity]. }
  rewrite Hne.
  destruct Hblank as [[r1 [r2 [H1 [H2 [Hn Hs]]]]]|[Hall [r1 [r2 [H1 [H2 [Hn Hs]]]]]]].
  - rewrite py_sorted_mixed; [reflexivity | |].
    + apply in_map_iff. now exists r1.
    + destruct (delivery_city r2) as [c|] eqn:Hc; [|contradiction].
      exists c. apply in_map_iff. now exists r2.
  - destruct (py_sorted (unique (map delivery_city (frame loaded))))
      as [cities|e] eqn:Hcities; cbn [bind].
    + rewrite py_sorted_mixed; [reflexivity | |].
      * apply in_map_iff. exists r1. split; [|exact H1].
        rewrite (Hlab r1 H1), Hn. reflexivity.
      * destruct (date (event r2)) as [d|] eqn:Hd; [|contradiction].
        exists (strftime_bY d). apply in_map_iff. exists r2. split; [|exact H2].
        rewrite (Hlab r2 H2), Hd. reflexivity.
    + exfalso.
      assert (Hnot : ~ In None (unique (map delivery_city (frame loaded)))).
      { intros Hin. apply unique_In, in_map_iff in Hin.
        destruct Hin as [r [Hc Hr]]. now apply (Hall r Hr). }
      unfold py_sorted in Hcities.
      destruct (all_text (unique (map delivery_city (frame loaded)))) eqn:Ht;
        [discriminate|].
      now apply all_text_None in Ht.
Qed.

Lemma blank_cell_stops_main_witness :
  main blank_city_sources select_all = Raise TypeError.
Proof.
  apply (blank_cell_stops_main blank_city_sources select_all _ eq_refl).
  left. eexists. eexists.
  split; [right; left; reflexivity|].
  split; [left; reflexivity|].
  split; [reflexivity | discriminate].
Defined.

(** ** Monthly counts *)

Lemma indicator_sum (x : Z) (ks : list Z) :
  NoDup ks -> In x ks ->
  list_sum (map (fun k => if x =? k then 1%nat else 0%nat) ks) = 1%nat.
Proof.
  induction 1 as [|k ks Hnot Hnd IH]; intros Hin; [destruct Hin|].
  simpl. destruct (Z.eqb_spec x k) as [->|Hne].
  - assert (Hz : list_sum (map (fun k0 => if k =? k0 then 1%nat else 0%nat) ks) = 0%nat).
    { clear IH Hnd Hin. induction ks as [|y ks IH]; simpl; [reflexivity|].
      destruct (Z.eqb_spec k y) as [->|_]; [exfalso; apply Hnot; now left|].
      apply IH. intros H. apply Hnot. now right. }
    now rewrite Hz.
  - destruct Hin as [->|Hin]; [contradiction|]. now rewrite IH.
Qed.

Lemma partition_count {A : Type} (f : A -> Z) (ks : list Z) (l : list A) :
  NoDup ks ->
  (forall a, In a l -> In (f a) ks) ->
  list_sum (map (fun k => List.length (filter (fun a => f a =? k) l)) ks)
  = List.length l.
Proof.
  intros Hnd. induction l as [|a l IH]; intros Hall.
  - simpl. clear Hnd Hall. induction ks as [|k ks IHk]; simpl; [reflexivity|].
    exact IHk.
  - assert (Hsplit : forall ks',
               list_sum (map (fun k => List.length (filter (fun a0 => f a0 =? k) (a :: l))) ks')
               = Nat.add
                   (list_sum (map (fun k => if f a =? k then 1%nat else 0%nat) ks'))
                   (list_sum (map (fun k => List.length (filter (fun a0 => f a0 =? k) l)) ks'))).
    { induction ks' as [|k ks' IHk]; [reflexivity|].
      unfold list_sum in *. cbn [map fold_right]. rewrite IHk. cbn [filter].
      destruct (f a =? k); cbn [List.length]; lia. }
    rewrite Hsplit, indicator_sum, IH; [reflexivity | | exact Hnd |].
    + intros b Hb. apply Hall. now right.
    + apply Hall. now left.
Qed.

Lemma StronglySorted_lt_NoDup (ks : list Z) : StronglySorted Z.lt ks -> NoDup ks.
Proof.
  induction 1 as [|k ks Hs IH Hall]; constructor; [|exact IH].
  intros Hin. rewrite Forall_forall in Hall. apply Hall in Hin. lia.
Qed.

Lemma counted_rows_of_month (df : DataFrame) (k : Z) :
  filter (fun r => notnull (delivery_id (event r))) (rows_of_month df k)
  = filter (fun r => match date (event r) with
                     | Some d => month_index d
                     | None => 0
                     end =? k)
           (filter (fun r => notnull (date (event r))
                             && notnull (delivery_id (event r))) df).
Proof.
  unfold rows_of_month, in_month, month_of.
  induction df as [|r df IH]; [reflexivity|]. cbn [filter].
  destruct (date (event r)) as [d|] eqn:Hd; cbn [option_map notnull andb].
  - destruct (month_index d =? k) eqn:Hk;
      destruct (notnull (delivery_id (event r))) eqn:Hi;
      cbn [filter]; rewrite ?Hd, ?Hi, ?Hk; cbn [filter]; rewrite ?Hd, ?Hk, IH;
      reflexivity.
  - exact IH.
Qed.

(** X12: whenever the monthly summary is computed, its delivery counts are
    natural numbers, one per month, that add up to the number of rows of the
    frame that have a date and a delivery_id: such a row is counted in exactly
    one month, and a row without a date or without a delivery_id in none.  So
    the counts add up to the number of rows when no such cell is blank. *)
Theorem monthly_counts_total (df : DataFrame) (summary : list Summary.row)
  (Hok : monthly_summary df = Ok summary) :
  exists counts,
    map Summary.deliveries_per_vehicle summary = map of_nat counts
    /\ List.length counts = List.length summary
    /\ list_sum counts
       = List.length
           (filter (fun r => notnull (date (event r))
                             && notnull (delivery_id (event r))) df)
    /\ (list_sum counts <= List.length df)%nat
    /\ ((forall r, In r df ->
                   date (event r) <> None /\ delivery_id (event r) <> None) ->
        list_sum counts = List.length df).
Proof.
  destruct (monthly_summary_Ok df summary Hok) as [lo [hi [Hs ->]]].
  exists (map (fun k => count_ids (rows_of_month df k))
              (zrange lo (Z.to_nat (hi - lo + 1)))).
  assert (Hsum : list_sum (map (fun k => count_ids (rows_of_month df k))
                               (zrange lo (Z.to_nat (hi - lo + 1))))
                 = List.length
                     (filter (fun r => notnull (date (event r))
                                       && notnull (delivery_id (event r))) df)).
  { unfold count_ids.
    rewrite (map_ext _ _ (fun k => f_equal (@List.length _)
                                           (counted_rows_of_month df k))).
    apply (partition_count
             (fun r => match date (event r) with
                       | Some d => month_index d
                       | None => 0
                       end)).
    - apply StronglySorted_lt_NoDup, zrange_sorted.
    - intros r Hr. apply filter_In in Hr. destruct Hr as [Hr Hd].
      apply zrange_In. destruct Hs as [Hall _].
      destruct (date (event r)) as [d|] eqn:Hdate; [|discriminate].
      assert (Hm : month_of (fun r => date (event r)) r = Some (month_index d))
        by (unfold month_of; now rewrite Hdate).
      specialize (Hall r _ Hr Hm). lia. }
  rewrite !map_map, !length_map.
  split; [|split; [reflexivity|split; [exact Hsum|split]]].
  - apply map_ext. intros k.
    cbn [summary_bucket Summary.deliveries_per_vehicle snd].
    rewrite map_map. cbn [fst]. now rewrite map_id.
  - rewrite Hsum. apply filter_length_le.
  - intros Hall. rewrite Hsum. f_equal.
    rewrite (filter_ext_in _ (fun _ => true)); [apply filter_true|].
    intros r Hr. destruct (Hall r Hr) as [Hd Hi].
    destruct (date (event r)); [|contradiction].
    destruct (delivery_id (event r)); [reflexivity | contradiction].
Qed.

Lemma monthly_counts_total_witness :
  exists summary counts,
    monthly_summary [row_jan31; row_blank_ids; row_feb01] = Ok summary
    /\ map Summary.deliveries_per_vehicle summary = map of_nat counts
    /\ list_sum counts = 2%nat.
Proof.
  eexists.
  destruct (monthly_counts_total [row_jan31; row_blank_ids; row_feb01] _ eq_refl)
    as [counts [Hmap [_ [Hsum _]]]].
  exists counts. split; [reflexivity|]. split; [exact Hmap|].
  rewrite Hsum. reflexivity.
Defined.

(** ** What [main] returns *)

Lemma kpi_cards_defined (df : DataFrame) (s : list Summary.row) :
  (mv <- mom_values_of s ;; kpi_cards (calculate_kpis df) mv)
  = Ok (map (fun p => {| card_name := fst (fst p); card_value := snd (fst p);
                         card_mom := snd p |})
            (combine (calculate_kpis df)
                     [ delta_percent s Summary.avg_delay;
                       delta_percent s Summary.on_time_rate;
                       delta_percent s Summary.cost_per_km;
                       delta_percent s Summary.deliveries_per_vehicle;
                       delta_percent s Summary.fuel_cost_ratio ])).
Proof. rewrite mom_values_of_defined. reflexivity. Qed.

(** X13: what [main] does, case by case.  An exception of the loader leaves
    [main].  When the loader returns the empty frame, [main] returns a page
    with the loader's error boxes only.  For a nonempty frame, an exception of
    either sidebar sort leaves [main]; when both sorts return, an empty
    filtered frame makes [main] raise ValueError, and a filtered frame with a
    dated row gives a page with the loader's error boxes, the two option
    lists headed by "All", the filtered rows, their chart data and exactly
    five tiles, named and valued as the five KPIs of the filtered rows in
    their order: none of the dictionary lookups of [main] fails. *)
Theorem main_outcomes (src : Sources) (sel : Selection) :
  (forall e, load_and_prepare_data src = Raise e -> main src sel = Raise e)
  /\ (forall loaded,
        load_and_prepare_data src = Ok loaded ->
        let cities := py_sorted (unique (map delivery_city (frame loaded))) in
        let months := py_sorted (unique (map month_name (frame loaded))) in
        let df := apply_filters sel (frame loaded) in
        (frame loaded = [] ->
         main src sel = Ok {| errors := shown loaded; body := None |})
        /\ (frame loaded <> [] ->
            (forall e, cities = Raise e -> main src sel = Raise e)
            /\ (forall cs e,
                  cities = Ok cs -> months = Raise e -> main src sel = Raise e)
            /\ (forall cs ms,
                  cities = Ok cs -> months = Ok ms ->
                  (df = [] -> main src sel = Raise ValueError)
                  /\ ((exists r, In r df /\ date (event r) <> None) ->
                      exists bundle,
                        main src sel
                        = Ok {| errors := shown loaded; body := Some bundle |}
                        /\ city_options bundle = Some "All"%string :: cs
                        /\ month_options bundle = Some "All"%string :: ms
                        /\ rows bundle = df
                        /\ prepare_chart_data df = Ok (charts bundle)
                        /\ map (fun c => (card_name c, card_value c)) (cards bundle)
                           = calculate_kpis df
                        /\ map card_name (cards bundle)
                           = [ "Average Delay"; "On-Time Rate";
                               "Cost per Kilometer"; "Deliveries per Vehicle";
                               "Fuel Cost Ratio" ]%string)))).
Proof.
  split.
  - intros e He. unfold main. now rewrite He.
  - intros loaded Hload cities months df. subst cities months df.
    unfold main. rewrite Hload. cbn [bind].
    destruct (frame loaded) as [|r rs] eqn:Hf; cbn [df_empty].
    + split; [reflexivity | intros H; contradiction].
    + split; [discriminate|]. intros _. split; [|split].
      * intros e ->. reflexivity.
      * intros cs e -> ->. reflexivity.
      * intros cs ms -> ->. cbn [bind]. split.
        -- intros ->. reflexivity.
        -- intros Hdated.
           destruct (monthly_summary_returns _ Hdated) as [summary Hsum].
           destruct (prepare_chart_data_returns _ Hdated) as [ch Hch].
           rewrite Hsum. cbn [bind].
           pose proof (kpi_cards_defined (apply_filters sel (r :: rs)) summary)
             as Hcards.
           destruct (mom_values_of summary) as [mv|e]; [|discriminate Hcards].
           cbn [bind] in Hcards |- *. rewrite Hcards. cbn [bind].
           rewrite Hch. cbn [bind].
           eexists. split; [reflexivity|].
           cbn [city_options month_options rows charts cards].
           repeat split.
Qed.

(** ** Trend chart and summary *)

Lemma summary_bucket_means (k : Z) (rs : DataFrame) :
  Summary.avg_delay
    (summary_bucket (k, map (fun r => (r, fuel_cost_ratio_of r)) rs))
  = Trend.avg_delay (trend_bucket (k, rs))
  /\ Summary.cost_per_km
       (summary_bucket (k, map (fun r => (r, fuel_cost_ratio_of r)) rs))
     = Trend.cost_per_km (trend_bucket (k, rs))
  /\ Summary.date
       (summary_bucket (k, map (fun r => (r, fuel_cost_ratio_of r)) rs))
     = Trend.date (trend_bucket (k, rs)).
Proof.
  cbn [summary_bucket trend_bucket Summary.avg_delay Summary.cost_per_km
       Summary.date Trend.avg_delay Trend.cost_per_km Trend.date fst snd].
  rewrite !map_map. cbn [fst]. repeat split.
Qed.

(** X14: the trend chart and the month-over-month summary are built on the
    same months.  One is computed exactly when the other is, and then, row by
    row, they have the same month-end date, the same mean delay and the same
    mean cost per km, and the label of a trend row is the label of its
    month-end date. *)
Theorem trend_matches_summary (df : DataFrame) :
  ((exists summary, monthly_summary df = Ok summary) <->
   (exists charts, prepare_chart_data df = Ok charts))
  /\ forall summary charts,
       monthly_summary df = Ok summary ->
       prepare_chart_data df = Ok charts ->
       let trend := monthly_trend charts in
       map Trend.date trend = map Summary.date summary
       /\ map Trend.avg_delay trend = map Summary.avg_delay summary
       /\ map Trend.cost_per_km trend = map Summary.cost_per_km summary
       /\ map Trend.month_name trend
          = map (fun t => strftime_bY (Trend.date t)) trend.
Proof.
  split.
  - split.
    + intros [summary Hsum].
      destruct (monthly_summary_Ok df summary Hsum) as [lo [hi [Hs _]]].
      destruct (prepare_chart_data_spans df lo hi Hs) as [charts [Hch _]].
      now exists charts.
    + intros [charts Hch].
      destruct (prepare_chart_data_Ok df charts Hch) as [bins [Hbins _]].
      destruct (resample_M_Ok _ _ _ Hbins) as [lo [hi [Hs _]]].
      rewrite (monthly_summary_spans _ _ _ Hs). eexists. reflexivity.
  - intros summary charts Hsum Hch trend. subst trend.
    destruct (monthly_summary_Ok df summary Hsum) as [lo [hi [Hs ->]]].
    destruct (prepare_chart_data_spans df lo hi Hs) as [charts' [Hch' Htrend]].
    rewrite Hch in Hch'. injection Hch' as <-. rewrite Htrend.
    rewrite !map_map.
    repeat split; apply map_ext; intros k;
      destruct (summary_bucket_means k (rows_of_month df k)) as [H1 [H2 H3]];
      congruence.
Qed.
